(** * crifanWordpress: a shallow embedding of
    [python3/crifanLib/thirdParty/crifanWordpress.py]

    The development follows the source file top-down: Python strings and the
    Unicode tables that [str.lower] and the [re] module consult, the fragment
    of [re.sub] used by [generateSlug], JSON values as returned by
    [Response.json()], the HTTP exchange as a state-and-exception monad, and
    then the methods of the class [crifanWordpress] themselves. *)

From Stdlib Require Import List String Ascii ZArith NArith Bool Lia Arith.
Import ListNotations.

Set Warnings "-register-all".
Local Open Scope list_scope.

(** ** Python strings *)

(** A Python [str] is a sequence of Unicode code points. *)
Definition char := N.
Definition str := list char.

(** [lit] reads an ASCII literal of the source as a [str]. *)
Definition lit (s : string) : str :=
  map N_of_ascii (list_ascii_of_string s).
Arguments lit s%_string.

Fixpoint str_eqb (a b : str) : bool :=
  match a, b with
  | [], [] => true
  | x :: a', y :: b' => N.eqb x y && str_eqb a' b'
  | _, _ => false
  end.

(** Truth value of a string: [if s:] holds exactly for a non-empty one. *)
Definition str_truthy (s : str) : bool :=
  match s with [] => false | _ :: _ => true end.

(** The Unicode database behind [str.lower()] and the [re] module.  The
    source relies on CPython's tables; they are a parameter of the embedding. *)
Record pyunicode := {
  str_lower : str -> str;          (* str.lower() *)
  re_word : char -> bool;          (* \w *)
  re_space : char -> bool;         (* \s *)
  re_ieq : char -> char -> bool    (* pattern char against subject char, re.I *)
}.

(** CPython's tables on the code points below 128, which is where the
    examples of the source live.  Code points from 128 upwards are left
    unchanged by [ascii_lower_char] and belong to no class here. *)
Definition ascii_lower_char (c : char) : char :=
  if (65 <=? c)%N && (c <=? 90)%N then (c + 32)%N else c.

Definition ascii_word (c : char) : bool :=
  ((48 <=? c)%N && (c <=? 57)%N) || ((65 <=? c)%N && (c <=? 90)%N)
  || ((97 <=? c)%N && (c <=? 122)%N) || (c =? 95)%N.

Definition ascii_space (c : char) : bool :=
  ((9 <=? c)%N && (c <=? 13)%N) || ((28 <=? c)%N && (c <=? 32)%N).

Definition ascii_db : pyunicode := {|
  str_lower := map ascii_lower_char;
  re_word := ascii_word;
  re_space := ascii_space;
  re_ieq := fun p c => (ascii_lower_char p =? ascii_lower_char c)%N
|}.

(** ** The fragment of [re] used by the source *)

Inductive cset :=
| CWord                (* \w *)
| CSpace               (* \s *)
| CNotWord             (* [^\w] *)
| CChar (c : char).    (* a literal character *)

Inductive atom :=
| One (k : cset)       (* a single character of the class *)
| Plus (k : cset)      (* k+, greedy *)
| Bol                  (* ^ *)
| Eol.                 (* $ *)

Definition regex := list atom.

(** The characters of an interpolated word, as literal atoms. *)
Definition lits (w : str) : regex := map (fun c => One (CChar c)) w.

Section Regex.
Variable U : pyunicode.

(** [icase] is the flag [re.I]; it only affects literal characters. *)
Definition in_cset (icase : bool) (k : cset) (c : char) : bool :=
  match k with
  | CWord => re_word U c
  | CSpace => re_space U c
  | CNotWord => negb (re_word U c)
  | CChar p => if icase then re_ieq U p c else N.eqb p c
  end.

(** Without [re.M], [$] matches at the end of the string and just before a
    newline that ends the string. *)
Definition at_eol (s : str) : bool :=
  match s with
  | [] => true
  | [c] => N.eqb c 10
  | _ => false
  end.

(** Backtracking match of [p] at the head of [s]; [bol] tells whether the
    head of [s] is the start of the subject.  The result is the number of
    characters of the match the engine settles on: a greedy [+] first takes
    as many characters as it can and gives them back one at a time. *)
Fixpoint match_here (icase : bool) (p : regex) : bool -> str -> option nat :=
  match p with
  | [] => fun _ _ => Some O
  | a :: p' =>
      match a with
      | One k => fun _ s =>
          match s with
          | c :: s' =>
              if in_cset icase k c
              then option_map S (match_here icase p' false s')
              else None
          | [] => None
          end
      | Plus k => fun _ s =>
          (fix run (s : str) : option nat :=
             match s with
             | c :: s' =>
                 if in_cset icase k c then
                   match run s' with
                   | Some n => Some (S n)
                   | None => option_map S (match_here icase p' false s')
                   end
                 else None
             | [] => None
             end) s
      | Bol => fun bol s => if bol then match_here icase p' bol s else None
      | Eol => fun bol s => if at_eol s then match_here icase p' bol s else None
      end
  end.

(** [re.sub(p, repl, s)] with a replacement that holds no backslash: scan
    left to right, replace each match and go on behind it; [skip] counts
    the characters of the current match still to be passed over. *)
Fixpoint sub_scan (icase : bool) (p : regex) (repl : str)
         (bol : bool) (skip : nat) (s : str) : str :=
  match s with
  | [] =>
      match skip with
      | O => match match_here icase p bol [] with
             | Some _ => repl
             | None => []
             end
      | S _ => []
      end
  | c :: s' =>
      match skip with
      | S k => sub_scan icase p repl false k s'
      | O =>
          match match_here icase p bol s with
          | Some (S k) => repl ++ sub_scan icase p repl false k s'
          | Some O => repl ++ c :: sub_scan icase p repl false O s'
          | None => c :: sub_scan icase p repl false O s'
          end
      end
  end.

Definition re_sub (icase : bool) (p : regex) (repl : str) (s : str) : str :=
  sub_scan icase p repl true O s.

(** ** [generateSlug] *)

Definition removeWordList : list str :=
  map lit ["to"; "the"; "a"; "are"; "is"; "and"; "of"; "in"; "at"]%string.

(** [re.sub("(\w+)'(\w+)", "\1\2", slug)].  The replacement is written in
    the source as an ordinary string literal, in which [\1] and [\2] are
    octal escapes: it is the two characters U+0001 U+0002, and holds no
    group reference. *)
Definition contraction_repl : str := [1; 2]%N.

Definition slug_contractions (slug : str) : str :=
  re_sub false [Plus CWord; One (CChar 39%N); Plus CWord] contraction_repl slug.

(** The body of [for eachWord in removeWordList]. *)
Definition slug_remove_word (slug eachWord : str) : str :=
  let removeInsideP := [Plus CSpace] ++ lits eachWord ++ [Plus CSpace] in
  let slug := re_sub true removeInsideP (lit " ") slug in
  let removeStartP := [Bol] ++ lits eachWord ++ [Plus CSpace] in
  let slug := re_sub true removeStartP (lit "") slug in
  let removeEndP := [Plus CSpace] ++ lits eachWord ++ [Eol] in
  re_sub true removeEndP (lit "") slug.

Definition generateSlug (enTitle : str) : str :=
  let slug := enTitle in
  if negb (str_truthy slug) then slug else
  let slug := str_lower U slug in
  let slug := slug_contractions slug in
  let slug := fold_left slug_remove_word removeWordList slug in
  let slug := re_sub false [One CNotWord] (lit "_") slug in
  let slug := re_sub false [Plus (CChar 95%N)] (lit "_") slug in
  slug.
End Regex.


(** ** Python values *)

(** The values the methods handle are those [Response.json()] produces,
    together with [None]: [None], booleans, integers, floats (mantissa and
    decimal exponent; the source never computes with them), strings, lists
    and dicts.  A dict keeps its keys, which are distinct, in insertion
    order. *)
Inductive json :=
| JNull
| JBool (b : bool)
| JInt (n : Z)
| JFloat (m e : Z)
| JStr (s : str)
| JList (l : list json)
| JDict (d : list (str * json)).

Inductive exn :=
| JSONDecodeError
| KeyError (k : str)
| TypeError
| AttributeError.

(** A Python expression either has a value or raises. *)
Inductive result (A : Type) :=
| Val (a : A)
| Exc (e : exn).
Arguments Val {A} a.
Arguments Exc {A} e.

Definition rbind {A B} (c : result A) (k : A -> result B) : result B :=
  match c with
  | Val a => k a
  | Exc e => Exc e
  end.

Notation "x <~ c ;; k" := (rbind c (fun x => k))
  (at level 61, c at next level, right associativity).
Notation "' pat <~ c ;; k" := (rbind c (fun x => match x with pat => k end))
  (at level 61, pat pattern, c at next level, right associativity).

(** [bool(v)] *)
Definition truthy (v : json) : bool :=
  match v with
  | JNull => false
  | JBool b => b
  | JInt n => negb (Z.eqb n 0)
  | JFloat m _ => negb (Z.eqb m 0)
  | JStr s => str_truthy s
  | JList l => match l with [] => false | _ => true end
  | JDict d => match d with [] => false | _ => true end
  end.

Fixpoint dict_get (d : list (str * json)) (k : str) : option json :=
  match d with
  | [] => None
  | (k', v) :: d' => if str_eqb k' k then Some v else dict_get d' k
  end.

(** [k in d] *)
Definition dict_has (d : list (str * json)) (k : str) : bool :=
  match dict_get d k with Some _ => true | None => false end.

(** [d[k] = v] *)
Fixpoint dict_set (d : list (str * json)) (k : str) (v : json)
  : list (str * json) :=
  match d with
  | [] => [(k, v)]
  | (k', v') :: d' =>
      if str_eqb k' k then (k', v) :: d' else (k', v') :: dict_set d' k v
  end.

(** [v[k]] for a string key [k]: [KeyError] on a dict without the key,
    [TypeError] on everything that is not a dict. *)
Definition getitem (v : json) (k : str) : result json :=
  match v with
  | JDict d =>
      match dict_get d k with
      | Some x => Val x
      | None => Exc (KeyError k)
      end
  | _ => Exc TypeError
  end.

(** [v == s] for a string [s] *)
Definition json_eq_str (v : json) (s : str) : bool :=
  match v with
  | JStr t => str_eqb t s
  | _ => false
  end.

(** [len(v)] *)
Definition py_len (v : json) : result nat :=
  match v with
  | JStr s => Val (List.length s)
  | JList l => Val (List.length l)
  | JDict d => Val (List.length d)
  | _ => Exc TypeError
  end.

(** The items [for x in v] runs through: a dict yields its keys, a string
    its characters. *)
Definition py_iter (v : json) : result (list json) :=
  match v with
  | JStr s => Val (map (fun c => JStr [c]) s)
  | JList l => Val l
  | JDict d => Val (map (fun kv => JStr (fst kv)) d)
  | _ => Exc TypeError
  end.

(** [l.extend(v)] on a list [l] *)
Definition list_extend (l : list json) (v : json) : result (list json) :=
  items <~ py_iter v ;; Val (l ++ items).

(** [v.extend(items)]: only a list has the method. *)
Definition obj_extend (v : json) (items : list json) : result json :=
  match v with
  | JList l => Val (JList (l ++ items))
  | _ => Exc AttributeError
  end.

(** [v.lower()]: only a string has the method. *)
Definition py_lower (U : pyunicode) (v : json) : result str :=
  match v with
  | JStr s => Val (str_lower U s)
  | _ => Exc AttributeError
  end.

(** ** The HTTP exchange *)

(** What the source reads of a [requests.Response]: [json_body] is the value
    of [resp.json()], [None] when the body is not JSON and the call raises. *)
Record response := {
  ok : bool;
  status_code : Z;
  text : str;
  json_body : option json
}.

Definition resp_json (resp : response) : result json :=
  match json_body resp with
  | Some j => Val j
  | None => Exc JSONDecodeError
  end.

Inductive http_method := GET | POST.

Record request := {
  meth : http_method;
  url : str;
  headers : list (str * str);
  params : list (str * json);      (* params= of a GET *)
  payload : option json            (* json= of a POST *)
}.

(** The remote side, as one run of the client sees it: the responses it will
    give, in order, and the requests handed to the session so far.  The
    session answers every request with a response; connection errors are its
    own affair. *)
Record world := {
  script : list response;
  sent : list request
}.

(** A method call returns, raises, or is left waiting for a response the
    script does not hold. *)
Inductive outcome (A : Type) :=
| Ret (a : A)
| Raise (e : exn)
| Blocked.
Arguments Ret {A} a.
Arguments Raise {A} e.
Arguments Blocked {A}.

Definition M (A : Type) := world -> outcome A * world.

Definition ret {A} (a : A) : M A := fun w => (Ret a, w).

Definition bind {A B} (c : M A) (k : A -> M B) : M B :=
  fun w =>
    match c w with
    | (Ret a, w') => k a w'
    | (Raise e, w') => (Raise e, w')
    | (Blocked, w') => (Blocked, w')
    end.

Notation "x <- c ;; k" := (bind c (fun x => k))
  (at level 61, c at next level, right associativity).
Notation "' pat <- c ;; k" := (bind c (fun x => match x with pat => k end))
  (at level 61, pat pattern, c at next level, right associativity).

Definition lift {A} (r : result A) : M A :=
  fun w => match r with
           | Val a => (Ret a, w)
           | Exc e => (Raise e, w)
           end.

(** [self.reqSession.get(...)] and [self.reqSession.post(...)]: the request
    is handed to the session and the next response of the script comes
    back. *)
Definition http (req : request) : M response :=
  fun w =>
    match script w with
    | [] => (Blocked, {| script := []; sent := sent w ++ [req] |})
    | r :: rest => (Ret r, {| script := rest; sent := sent w ++ [req] |})
    end.

(** Number of responses the script still holds. *)
Definition pending : M nat := fun w => (Ret (List.length (script w)), w).

(** ** The class [crifanWordpress] *)

Record crifanWordpress := {
  host : str;
  authorization : str;
  apiValidateToken : str;
  apiMedia : str;
  apiPosts : str;
  apiCategories : str;
  apiTags : str
}.

(** [__init__]; the session, its retry adapter and the proxies belong to the
    transport. *)
Definition init (host jwtToken : str) : crifanWordpress := {|
  host := host;
  authorization := lit "Bearer " ++ jwtToken;
  apiValidateToken := host ++ lit "/wp-json/jwt-auth/v1/token/validate";
  apiMedia := host ++ lit "/wp-json/wp/v2/media";
  apiPosts := host ++ lit "/wp-json/wp/v2/posts";
  apiCategories := host ++ lit "/wp-json/wp/v2/categories";
  apiTags := host ++ lit "/wp-json/wp/v2/tags"
|}.

Definition SearchTagPerPage : Z := 100.

(** *** Static methods *)

Definition processCommonResponse (resp : response) : result (bool * json) :=
  if ok resp then
    respJson <~ resp_json resp ;;
    match respJson with
    | JDict d =>
        if dict_has d (lit "id") then
          newId <~ getitem respJson (lit "id") ;;
          newSlug <~ getitem respJson (lit "slug") ;;
          newLink <~ getitem respJson (lit "link") ;;
          let respInfo :=
            [(lit "id", newId); (lit "slug", newSlug); (lit "link", newLink)] in
          respInfo <~
            (if dict_has d (lit "type") then
               curType <~ getitem respJson (lit "type") ;;
               if json_eq_str curType (lit "attachment")
                  || json_eq_str curType (lit "post") then
                 guid <~ getitem respJson (lit "guid") ;;
                 rendered <~ getitem guid (lit "rendered") ;;
                 let respInfo := dict_set respInfo (lit "url") rendered in
                 title <~ getitem respJson (lit "title") ;;
                 rendered <~ getitem title (lit "rendered") ;;
                 Val (dict_set respInfo (lit "title") rendered)
               else Val respInfo
             else Val respInfo) ;;
          respInfo <~
            (if dict_has d (lit "taxonomy") then
               curTaxonomy <~ getitem respJson (lit "taxonomy") ;;
               name <~ getitem respJson (lit "name") ;;
               let respInfo := dict_set respInfo (lit "name") name in
               description <~ getitem respJson (lit "description") ;;
               let respInfo := dict_set respInfo (lit "description") description in
               if json_eq_str curTaxonomy (lit "category") then
                 parent <~ getitem respJson (lit "parent") ;;
                 Val (dict_set respInfo (lit "parent") parent)
               else Val respInfo
             else Val respInfo) ;;
          Val (true, JDict respInfo)
        else Val (true, respJson)
    | JList _ => Val (true, respJson)
    | _ => Val (false, JDict [])
    end
  else
    Val (false, JDict [(lit "errCode", JInt (status_code resp));
                       (lit "errMsg", JStr (text resp))]).

Section FindSameName.
Variable U : pyunicode.

(** The [for] loop of [findSameNameTaxonomy]; the result is the pair
    [(sameNameTaxonomy, lowercaseSameNameTaxonomy)] it leaves behind. *)
Fixpoint findSameName_loop (name lowerName : str) (taxonomyLit : list json)
         (lowercaseSameNameTaxonomy : json) : result (json * json) :=
  match taxonomyLit with
  | [] => Val (JNull, lowercaseSameNameTaxonomy)
  | eachTaxonomy :: rest =>
      curTaxonomyName <~ getitem eachTaxonomy (lit "name") ;;
      curTaxonomyLowerName <~ py_lower U curTaxonomyName ;;
      if json_eq_str curTaxonomyName name then
        Val (eachTaxonomy, lowercaseSameNameTaxonomy)
      else if str_eqb curTaxonomyLowerName lowerName then
        findSameName_loop name lowerName rest eachTaxonomy
      else
        findSameName_loop name lowerName rest lowercaseSameNameTaxonomy
  end.

Definition findSameNameTaxonomy (name : str) (taxonomyLit : json)
  : result json :=
  let foundTaxonomy := JNull in
  let lowerName := str_lower U name in
  items <~ py_iter taxonomyLit ;;
  '(sameNameTaxonomy, lowercaseSameNameTaxonomy) <~
    findSameName_loop name lowerName items JNull ;;
  if truthy sameNameTaxonomy then Val sameNameTaxonomy
  else if truthy lowercaseSameNameTaxonomy then Val lowercaseSameNameTaxonomy
  else Val foundTaxonomy.
End FindSameName.

(** *** Instance methods *)

Section Methods.
Variable U : pyunicode.
Variable self : crifanWordpress.

(** The request [createTaxonomy] builds.  Optional arguments are passed as
    values; [JNull] is the default [None]. *)
Definition createTaxonomy_request (name taxonomy : str)
           (parent slug description : json) : request :=
  let curHeaders :=
    [(lit "Authorization", authorization self);
     (lit "Content-Type", lit "application/json");
     (lit "Accept", lit "application/json")] in
  let postDict := [(lit "name", JStr name)] in
  let postDict :=
    if truthy slug then dict_set postDict (lit "slug") slug else postDict in
  let postDict :=
    if truthy description
    then dict_set postDict (lit "description") description else postDict in
  let postDict :=
    if str_eqb taxonomy (lit "category") then
      if truthy parent then dict_set postDict (lit "parent") parent
      else postDict
    else postDict in
  let createTaxonomyUrl := lit "" in
  let createTaxonomyUrl :=
    if str_eqb taxonomy (lit "category") then apiCategories self
    else if str_eqb taxonomy (lit "post_tag") then apiTags self
    else createTaxonomyUrl in
  {| meth := POST; url := createTaxonomyUrl; headers := curHeaders;
     params := []; payload := Some (JDict postDict) |}.

Definition createTaxonomy (name taxonomy : str)
           (parent slug description : json) : M (bool * json) :=
  resp <- http (createTaxonomy_request name taxonomy parent slug description) ;;
  lift (processCommonResponse resp).

(** The request [getTaxonomySinglePage] builds. *)
Definition getTaxonomySinglePage_request (name taxonomy : str) (curPage : Z)
           (perPage : option Z) : request :=
  let curHeaders :=
    [(lit "Authorization", authorization self);
     (lit "Accept", lit "application/json")] in
  let perPage :=
    match perPage with
    | None => SearchTagPerPage
    | Some n => n
    end in
  let queryParamDict :=
    [(lit "search", JStr name);
     (lit "page", JInt curPage);
     (lit "per_page", JInt perPage)] in
  let searchTaxonomyUrl := lit "" in
  let searchTaxonomyUrl :=
    if str_eqb taxonomy (lit "category") then apiCategories self
    else if str_eqb taxonomy (lit "post_tag") then apiTags self
    else searchTaxonomyUrl in
  {| meth := GET; url := searchTaxonomyUrl; headers := curHeaders;
     params := queryParamDict; payload := None |}.

Definition getTaxonomySinglePage (name taxonomy : str) (curPage : Z)
           (perPage : option Z) : M (bool * json) :=
  resp <- http (getTaxonomySinglePage_request name taxonomy curPage perPage) ;;
  lift (processCommonResponse resp).

(** The [while] loop of [getAllTaxonomy], its variables as arguments.  Each
    turn takes a response off the script, so [fuel] is set by the caller
    to more than the script holds and never ends a run. *)
Fixpoint restPages (fuel : nat) (name taxonomy : str) (perPage : Z)
         (isRestEachPageOk isRestEachPageRespFull : bool)
         (restCurPage : Z) (restRespAllItemList : list json)
  : M (list json) :=
  if isRestEachPageOk && isRestEachPageRespFull then
    match fuel with
    | O => fun w => (Blocked, w)
    | S fuel' =>
        '(isRestEachPageOk, restEachPageRespItemList) <-
          getTaxonomySinglePage name taxonomy restCurPage (Some perPage) ;;
        '(isRestEachPageRespFull, restRespAllItemList) <-
          (if isRestEachPageOk then
             restEachPageRespItemNum <- lift (py_len restEachPageRespItemList) ;;
             let isRestEachPageRespFull :=
               (perPage <=? Z.of_nat restEachPageRespItemNum)%Z in
             restRespAllItemList <-
               lift (list_extend restRespAllItemList restEachPageRespItemList) ;;
             ret (isRestEachPageRespFull, restRespAllItemList)
           else ret (isRestEachPageRespFull, restRespAllItemList)) ;;
        let restCurPage := (restCurPage + 1)%Z in
        restPages fuel' name taxonomy perPage
                  isRestEachPageOk isRestEachPageRespFull
                  restCurPage restRespAllItemList
    end
  else ret restRespAllItemList.

Definition getAllTaxonomy (name taxonomy : str) : M (bool * json) :=
  let perPage := SearchTagPerPage in
  let firstPageNum := 1%Z in
  '(isFirstPageSearchOk, firstPageRespInfo) <-
    getTaxonomySinglePage name taxonomy firstPageNum (Some perPage) ;;
  if isFirstPageSearchOk then
    let firstPageRespList := firstPageRespInfo in
    let respAllTaxonomyLit := firstPageRespList in
    firstPageRespItemNum <- lift (py_len firstPageRespList) ;;
    respAllTaxonomyLit <-
      (if (perPage <=? Z.of_nat firstPageRespItemNum)%Z then
         let restCurPage := (firstPageNum + 1)%Z in
         n <- pending ;;
         restRespAllItemList <-
           restPages (S n) name taxonomy perPage true true restCurPage [] ;;
         lift (obj_extend respAllTaxonomyLit restRespAllItemList)
       else ret respAllTaxonomyLit) ;;
    ret (true, respAllTaxonomyLit)
  else
    ret (false, firstPageRespInfo).

Definition searchTaxonomy (name taxonomy : str) : M (bool * json) :=
  '(isGetAllOk, respInfo) <- getAllTaxonomy name taxonomy ;;
  if isGetAllOk then
    let respAllTaxonomyLit := respInfo in
    finalRespTaxonomy <- lift (findSameNameTaxonomy U name respAllTaxonomyLit) ;;
    ret (true, finalRespTaxonomy)
  else
    ret (false, JNull).

(** The arguments of the [logging.info] call that reports a taxonomy:
    they are evaluated, left to right, before the call. *)
Definition log_taxonomy (curTaxonomy : json) : result unit :=
  _ <~ getitem curTaxonomy (lit "name") ;;
  _ <~ getitem curTaxonomy (lit "id") ;;
  _ <~ getitem curTaxonomy (lit "slug") ;;
  Val tt.

(** The body of the [for] loop of [getTaxonomyIdList]: one name, and the
    id list as it stands. *)
Definition resolveName (taxonomy : str) (taxonomyIdList : list json)
           (eachTaxonomyName : str) : M (list json) :=
  let curTaxonomy := JNull in
  '(isSearhOk, existedTaxonomy) <- searchTaxonomy eachTaxonomyName taxonomy ;;
  curTaxonomy <-
    (if isSearhOk && truthy existedTaxonomy then
       let curTaxonomy := existedTaxonomy in
       _ <- lift (log_taxonomy curTaxonomy) ;;
       ret curTaxonomy
     else
       '(isCreateOk, createdTaxonomy) <-
         createTaxonomy eachTaxonomyName taxonomy JNull JNull JNull ;;
       if isCreateOk && truthy createdTaxonomy then
         let curTaxonomy := createdTaxonomy in
         _ <- lift (log_taxonomy curTaxonomy) ;;
         ret curTaxonomy
       else
         ret curTaxonomy) ;;
  if truthy curTaxonomy then
    curTaxonomyId <- lift (getitem curTaxonomy (lit "id")) ;;
    ret (taxonomyIdList ++ [curTaxonomyId])
  else
    ret taxonomyIdList.

Fixpoint resolveNames (taxonomy : str) (taxonomyIdList : list json)
         (nameList : list str) : M (list json) :=
  match nameList with
  | [] => ret taxonomyIdList
  | eachTaxonomyName :: rest =>
      taxonomyIdList <- resolveName taxonomy taxonomyIdList eachTaxonomyName ;;
      resolveNames taxonomy taxonomyIdList rest
  end.

Definition getTaxonomyIdList (nameList : list str) (taxonomy : str)
  : M (list json) :=
  resolveNames taxonomy [] nameList.
End Methods.

(** *** The methods around the taxonomy resolution *)

Definition JWT_TOKEN_VALID_CODE : str := lit "jwt_auth_valid_token".
Definition JWT_TOKEN_INVALID_CODE : str := lit "jwt_auth_invalid_token".

Section OtherMethods.
Variable U : pyunicode.
Variable self : crifanWordpress.

(** The request [validateToken] builds: a POST without a body. *)
Definition validateToken_request : request :=
  let curHeaders :=
    [(lit "Authorization", authorization self);
     (lit "Accept", lit "application/json")] in
  let validateTokenUrl := apiValidateToken self in
  {| meth := POST; url := validateTokenUrl; headers := curHeaders;
     params := []; payload := None |}.

Definition validateToken : M (bool * json) :=
  resp <- http validateToken_request ;;
  '(isTokenOk, respInfo) <- lift (processCommonResponse resp) ;;
  if isTokenOk then
    respCode <- lift (getitem respInfo (lit "code")) ;;
    if json_eq_str respCode JWT_TOKEN_VALID_CODE
    then ret (true, respInfo)
    else ret (false, respInfo)
  else ret (isTokenOk, respInfo).

(** The request [createPost] builds once the names are resolved. *)
Definition createPost_request (title content dateStr slug : str)
           (categoryIdList tagIdList : list json)
           (status postFormat : str) : request :=
  let curHeaders :=
    [(lit "Authorization", authorization self);
     (lit "Content-Type", lit "application/json");
     (lit "Accept", lit "application/json")] in
  let postDict :=
    [(lit "title", JStr title);
     (lit "content", JStr content);
     (lit "date", JStr dateStr);
     (lit "slug", JStr slug);
     (lit "status", JStr status);
     (lit "format", JStr postFormat);
     (lit "categories", JList categoryIdList);
     (lit "tags", JList tagIdList)] in
  let createPostUrl := apiPosts self in
  {| meth := POST; url := createPostUrl; headers := curHeaders;
     params := []; payload := Some (JDict postDict) |}.

(** [status] and [postFormat] default to ["draft"] and ["standard"], the
    two lists to the empty list. *)
Definition createPost (title content dateStr slug : str)
           (categoryNameList tagNameList : list str)
           (status postFormat : str) : M (bool * json) :=
  let categoryIdList := [] in
  let tagIdList := [] in
  categoryIdList <-
    (match categoryNameList with
     | _ :: _ => getTaxonomyIdList U self categoryNameList (lit "category")
     | [] => ret categoryIdList
     end) ;;
  tagIdList <-
    (match tagNameList with
     | _ :: _ => getTaxonomyIdList U self tagNameList (lit "post_tag")
     | [] => ret tagIdList
     end) ;;
  resp <- http (createPost_request title content dateStr slug
                  categoryIdList tagIdList status postFormat) ;;
  lift (processCommonResponse resp).
End OtherMethods.

(** ** Specifications and sample data *)

(** A taxonomy record: a dict that carries a string under ["name"]. *)
Definition is_taxonomy (t : json) : bool :=
  match t with
  | JDict d =>
      match dict_get d (lit "name") with
      | Some (JStr _) => true
      | _ => false
      end
  | _ => false
  end.

Definition name_is (name : str) (t : json) : bool :=
  match getitem t (lit "name") with
  | Val v => json_eq_str v name
  | Exc _ => false
  end.

Definition lower_name_is (U : pyunicode) (name : str) (t : json) : bool :=
  match getitem t (lit "name") with
  | Val (JStr s) => str_eqb (str_lower U s) (str_lower U name)
  | _ => false
  end.

(** The tie-break policy of [findMatch]: the first candidate with exactly the
    name; failing that, the last one with the name up to case; failing that,
    none. *)
Definition findMatch_spec (U : pyunicode) (name : str) (candidates : list json)
  : json :=
  match find (name_is name) candidates with
  | Some t => t
  | None =>
      match find (lower_name_is U name) (rev candidates) with
      | Some t => t
      | None => JNull
      end
  end.

(** A record that carries only a name, as in the examples. *)
Definition named (s : string) : json := JDict [(lit "name", JStr (lit s))].
Arguments named s%_string.

(** What the loop of [findSameNameTaxonomy] leaves in
    [lowercaseSameNameTaxonomy] when it runs to the end of the list. *)
Fixpoint last_lower (U : pyunicode) (name : str) (l : list json) (acc : json)
  : json :=
  match l with
  | [] => acc
  | t :: r => last_lower U name r (if lower_name_is U name t then t else acc)
  end.

(** The shape of a slug: no two underscores in a row, none in front, none at
    the end. *)
Fixpoint no_double_underscore (s : str) : Prop :=
  match s with
  | a :: (b :: _) as t => ~ (a = 95%N /\ b = 95%N) /\ no_double_underscore t
  | _ => True
  end.

Definition no_leading_underscore (s : str) : Prop := hd_error s <> Some 95%N.

Definition no_trailing_underscore (s : str) : Prop :=
  hd_error (rev s) <> Some 95%N.

(** Length of the longest prefix of [s] within the class [f]. *)
Fixpoint run_length (f : char -> bool) (s : str) : nat :=
  match s with
  | c :: s' => if f c then S (run_length f s') else O
  | [] => O
  end.

(** Each run of underscores shrunk to one; [prev] tells whether the character
    before [s] was an underscore. *)
Fixpoint collapse (prev : bool) (s : str) : str :=
  match s with
  | [] => []
  | c :: s' =>
      if N.eqb 95 c then
        if prev then collapse true s' else c :: collapse true s'
      else c :: collapse false s'
  end.

(** Values [processCommonResponse] takes for neither a dict nor a list. *)
Definition is_dict_or_list (v : json) : bool :=
  match v with
  | JDict _ | JList _ => true
  | _ => false
  end.

(** An expired token: status 403, a body that is plain text. *)
Definition resp_403 : response := {|
  ok := false;
  status_code := 403;
  text := lit "Expired token";
  json_body := None
|}.

(** Status 200 with a body that is no JSON. *)
Definition resp_200_html : response := {|
  ok := true;
  status_code := 200;
  text := lit "<html>Bad Gateway</html>";
  json_body := None
|}.

(** A page of search results: a successful response whose body is a list. *)
Definition ok_page (r : response) (items : list json) : Prop :=
  ok r = true /\ json_body r = Some (JList items).

(** A page that holds at least [SearchTagPerPage] items. *)
Definition full_page (items : list json) : Prop :=
  (SearchTagPerPage <= Z.of_nat (List.length items))%Z.

(** The response that ends the loop of [getAllTaxonomy], with the items it
    adds: a page that is not full, or a failure. *)
Inductive closing_page (r : response) : list json -> Prop :=
| closing_short (items : list json) :
    ok_page r items -> ~ full_page items -> closing_page r items
| closing_failed :
    ok r = false -> closing_page r [].

(** The requests for the [n] pages from page [first] on. *)
Definition page_requests (self : crifanWordpress) (name taxonomy : str)
           (first n : nat) : list request :=
  map (fun p => getTaxonomySinglePage_request self name taxonomy (Z.of_nat p)
                  (Some SearchTagPerPage))
      (seq first n).

(** A page of records, as a successful response; the text of the body is
    not read on that path. *)
Definition page_of (items : list json) : response := {|
  ok := true;
  status_code := 200;
  text := [];
  json_body := Some (JList items)
|}.

(** A server error. *)
Definition resp_500 : response := {|
  ok := false;
  status_code := 500;
  text := lit "Internal Server Error";
  json_body := None
|}.

Definition crifan_org : crifanWordpress :=
  init (lit "https://www.crifan.org") (lit "token").

(** A record the resolver can report and take the id from: it carries
    ["name"], ["id"] and ["slug"]. *)
Definition record_with_id (t i : json) : Prop :=
  exists n sl : json,
    getitem t (lit "name") = Val n
    /\ getitem t (lit "id") = Val i
    /\ getitem t (lit "slug") = Val sl.

(** The state machine of one name, on the results of the two methods it
    calls: found by the search; or not found, or the search failed, and then
    created; or not found, or the search failed, and the creation failed.
    The outcome is the id, if there is one, and the world left behind. *)
Inductive name_run (U : pyunicode) (self : crifanWordpress)
          (taxonomy name : str) (w : world) : option json -> world -> Prop :=
| run_found (t i : json) (w1 : world) :
    searchTaxonomy U self name taxonomy w = (Ret (true, t), w1) ->
    record_with_id t i ->
    name_run U self taxonomy name w (Some i) w1
| run_created (isSearhOk : bool) (t c i : json) (w1 w2 : world) :
    searchTaxonomy U self name taxonomy w = (Ret (isSearhOk, t), w1) ->
    isSearhOk && truthy t = false ->
    createTaxonomy self name taxonomy JNull JNull JNull w1
    = (Ret (true, c), w2) ->
    record_with_id c i ->
    name_run U self taxonomy name w (Some i) w2
| run_failed (isSearhOk isCreateOk : bool) (t c : json) (w1 w2 : world) :
    searchTaxonomy U self name taxonomy w = (Ret (isSearhOk, t), w1) ->
    isSearhOk && truthy t = false ->
    createTaxonomy self name taxonomy JNull JNull JNull w1
    = (Ret (isCreateOk, c), w2) ->
    isCreateOk && truthy c = false ->
    name_run U self taxonomy name w None w2.

(** The names of a list, one after the other. *)
Inductive batch_run (U : pyunicode) (self : crifanWordpress) (taxonomy : str)
  : list str -> world -> list (option json) -> world -> Prop :=
| batch_nil (w : world) :
    batch_run U self taxonomy [] w [] w
| batch_cons (name : str) (names : list str) (w w1 w2 : world)
             (o : option json) (os : list (option json)) :
    name_run U self taxonomy name w o w1 ->
    batch_run U self taxonomy names w1 os w2 ->
    batch_run U self taxonomy (name :: names) w (o :: os) w2.

(** The ids among the outcomes, in order. *)
Fixpoint ids_of (os : list (option json)) : list json :=
  match os with
  | [] => []
  | Some i :: os' => i :: ids_of os'
  | None :: os' => ids_of os'
  end.

(** The records of the comments of the source. *)
Definition record_cocoa : json :=
  JDict [(lit "id", JInt 1639); (lit "count", JInt 7);
         (lit "description", JStr (lit ""));
         (lit "name", JStr (lit "Cocoa")); (lit "slug", JStr (lit "cocoa-mac"));
         (lit "taxonomy", JStr (lit "category")); (lit "parent", JInt 1374)].

Definition record_mac : json :=
  JDict [(lit "id", JInt 1374); (lit "count", JInt 350);
         (lit "description", JStr (lit ""));
         (lit "name", JStr (lit "Mac")); (lit "slug", JStr (lit "mac"));
         (lit "taxonomy", JStr (lit "category")); (lit "parent", JInt 4624)].

(** The answer to the creation of the tag GPU. *)
Definition resp_created_gpu : response := {|
  ok := true;
  status_code := 201;
  text := [];
  json_body :=
    Some (JDict [(lit "id", JInt 13224); (lit "count", JInt 0);
                 (lit "description", JStr (lit ""));
                 (lit "link", JStr (lit "https://www.crifan.org/tag/gpu/"));
                 (lit "name", JStr (lit "GPU")); (lit "slug", JStr (lit "gpu"));
                 (lit "taxonomy", JStr (lit "post_tag"));
                 (lit "meta", JList [])])
|}.

(** The keys [processCommonResponse] can put into the payload it builds from
    an object that has an id. *)
Definition extracted_keys : list str :=
  [lit "id"; lit "slug"; lit "link"; lit "url"; lit "title";
   lit "name"; lit "description"; lit "parent"].

(** The object has a type, and it is ["attachment"] or ["post"]. *)
Definition is_media (d : list (str * json)) : bool :=
  match dict_get d (lit "type") with
  | Some curType =>
      json_eq_str curType (lit "attachment") || json_eq_str curType (lit "post")
  | None => false
  end.

(** The object has a taxonomy, and it is ["category"]. *)
Definition is_category (d : list (str * json)) : bool :=
  match dict_get d (lit "taxonomy") with
  | Some curTaxonomy => json_eq_str curTaxonomy (lit "category")
  | None => false
  end.

(** The keys [createTaxonomy] can put into the body of its request. *)
Definition taxonomy_keys : list str :=
  [lit "name"; lit "slug"; lit "description"; lit "parent"].

(** The exception a candidate that is no taxonomy record raises when the
    loop of [findSameNameTaxonomy] reaches it. *)
Definition candidate_error (t : json) : exn :=
  match getitem t (lit "name") with
  | Exc e => e
  | Val _ => AttributeError
  end.

(** The two requests made for each name when every search and every
    creation fails: the first page of the search, then the creation. *)
Definition failed_requests (self : crifanWordpress) (taxonomy : str)
           (nameList : list str) : list request :=
  flat_map (fun name =>
              [getTaxonomySinglePage_request self name taxonomy 1
                 (Some SearchTagPerPage);
               createTaxonomy_request self name taxonomy JNull JNull JNull])
           nameList.

(** The least number of characters a match of the pattern takes. *)
Fixpoint min_len (p : regex) : nat :=
  match p with
  | [] => O
  | One _ :: p' => S (min_len p')
  | Plus _ :: p' => S (min_len p')
  | Bol :: p' => min_len p'
  | Eol :: p' => min_len p'
  end.

(** The pattern holds a character or a run of the class [k]. *)
Definition takes_class (k : cset) (p : regex) : Prop :=
  Exists (fun a => a = One k \/ a = Plus k) p.

(** The query of the request for page [p] of a search: the name, the page
    and 100 items a page. *)
Definition page_query (name : str) (p : nat) : list (str * json) :=
  [(lit "search", JStr name);
   (lit "page", JInt (Z.of_nat p));
   (lit "per_page", JInt 100)].


(** Status 200 with an object that has no id and no name. *)
Definition resp_200_no_id : response := {|
  ok := true;
  status_code := 200;
  text := [];
  json_body := Some (JDict [(lit "message", JStr (lit "done"))])
|}.

(** The ways the resolution of one name raises: in the search; in the
    creation made after a search without record; or on a record, found or
    created, that lacks the name, the id or the slug the report reads.  The
    outcome is the exception and the world left behind. *)
Inductive name_raises (U : pyunicode) (self : crifanWordpress)
          (taxonomy name : str) (w : world) : exn -> world -> Prop :=
| raises_in_search (e : exn) (w1 : world) :
    searchTaxonomy U self name taxonomy w = (Raise e, w1) ->
    name_raises U self taxonomy name w e w1
| raises_on_found (t : json) (e : exn) (w1 : world) :
    searchTaxonomy U self name taxonomy w = (Ret (true, t), w1) ->
    truthy t = true ->
    log_taxonomy t = Exc e ->
    name_raises U self taxonomy name w e w1
| raises_in_creation (isSearhOk : bool) (t : json) (e : exn)
                     (w1 w2 : world) :
    searchTaxonomy U self name taxonomy w = (Ret (isSearhOk, t), w1) ->
    isSearhOk && truthy t = false ->
    createTaxonomy self name taxonomy JNull JNull JNull w1 = (Raise e, w2) ->
    name_raises U self taxonomy name w e w2
| raises_on_created (isSearhOk : bool) (t c : json) (e : exn)
                    (w1 w2 : world) :
    searchTaxonomy U self name taxonomy w = (Ret (isSearhOk, t), w1) ->
    isSearhOk && truthy t = false ->
    createTaxonomy self name taxonomy JNull JNull JNull w1
    = (Ret (true, c), w2) ->
    truthy c = true ->
    log_taxonomy c = Exc e ->
    name_raises U self taxonomy name w e w2.

(** * Properties *)

(** ** [findSameNameTaxonomy] *)

Lemma str_eqb_refl (a : str) : str_eqb a a = true.
Proof.
  induction a as [|x a IH]; simpl; [reflexivity|].
  now rewrite N.eqb_refl, IH.
Qed.

Lemma str_eqb_eq (a b : str) : str_eqb a b = true <-> a = b.
Proof.
  split.
  - revert b; induction a as [|x a IH]; intros [|y b]; simpl; try discriminate.
    + reflexivity.
    + intros H. apply andb_true_iff in H. destruct H as [Hx Hab].
      apply N.eqb_eq in Hx. subst y. f_equal. now apply IH.
  - intros ->. apply str_eqb_refl.
Qed.


Lemma is_taxonomy_truthy (t : json) : is_taxonomy t = true -> truthy t = true.
Proof.
  destruct t as [ | | | | | |d]; simpl; try discriminate.
  destruct d; simpl; [discriminate|reflexivity].
Qed.

Lemma find_snoc {A} (f : A -> bool) (l : list A) (x : A) :
  find f (l ++ [x]) =
  match find f l with
  | Some y => Some y
  | None => if f x then Some x else None
  end.
Proof.
  induction l as [|a l IH]; simpl; [reflexivity|].
  destruct (f a); [reflexivity|exact IH].
Qed.

Section FindSameNameProofs.
Variable U : pyunicode.
Variable name : str.

Lemma last_lower_find (l : list json) (acc : json) :
  last_lower U name l acc =
  match find (lower_name_is U name) (rev l) with
  | Some t => t
  | None => acc
  end.
Proof.
  revert acc; induction l as [|t r IH]; intros acc; simpl; [reflexivity|].
  rewrite IH, find_snoc.
  destruct (find (lower_name_is U name) (rev r)); [reflexivity|].
  destruct (lower_name_is U name t); reflexivity.
Qed.

Lemma findSameName_loop_exact (l : list json) (acc : json) (t : json) :
  forallb is_taxonomy l = true ->
  find (name_is name) l = Some t ->
  exists acc',
    findSameName_loop U name (str_lower U name) l acc = Val (t, acc').
Proof.
  revert acc; induction l as [|x r IH]; intros acc Hall Hfind; simpl in *.
  - discriminate.
  - apply andb_true_iff in Hall. destruct Hall as [Hx Hr].
    unfold name_is in Hfind.
    destruct x as [ | | | | | |d]; simpl in Hx; try discriminate.
    simpl in *. destruct (dict_get d (lit "name")) as [v|]; [|discriminate].
    destruct v as [ | | | |s| | ]; try discriminate. simpl in *.
    destruct (str_eqb s name).
    + injection Hfind as <-. eexists; reflexivity.
    + destruct (str_eqb (str_lower U s) (str_lower U name)); now apply IH.
Qed.

Lemma findSameName_loop_none (l : list json) (acc : json) :
  forallb is_taxonomy l = true ->
  find (name_is name) l = None ->
  findSameName_loop U name (str_lower U name) l acc
  = Val (JNull, last_lower U name l acc).
Proof.
  revert acc; induction l as [|x r IH]; intros acc Hall Hfind; simpl in *.
  - reflexivity.
  - apply andb_true_iff in Hall. destruct Hall as [Hx Hr].
    unfold name_is in Hfind. unfold lower_name_is.
    destruct x as [ | | | | | |d]; simpl in Hx; try discriminate.
    simpl in *. destruct (dict_get d (lit "name")) as [v|]; [|discriminate].
    destruct v as [ | | | |s| | ]; try discriminate. simpl in *.
    destruct (str_eqb s name); [discriminate|].
    destruct (str_eqb (str_lower U s) (str_lower U name)); now apply IH.
Qed.

Lemma findSameNameTaxonomy_refines (candidates : list json) :
  forallb is_taxonomy candidates = true ->
  findSameNameTaxonomy U name (JList candidates)
  = Val (findMatch_spec U name candidates).
Proof.
  intros Hall. unfold findSameNameTaxonomy, findMatch_spec. simpl.
  destruct (find (name_is name) candidates) as [t|] eqn:Hfind.
  - destruct (findSameName_loop_exact candidates JNull t Hall Hfind) as [acc' ->]. simpl.
    apply find_some in Hfind. destruct Hfind as [Hin _].
    rewrite forallb_forall in Hall.
    now rewrite (is_taxonomy_truthy _ (Hall _ Hin)).
  - rewrite (findSameName_loop_none candidates JNull Hall Hfind). simpl.
    rewrite last_lower_find.
    destruct (find (lower_name_is U name) (rev candidates)) as [t|] eqn:Hl;
      [|reflexivity].
    apply find_some in Hl. destruct Hl as [Hin _].
    apply in_rev in Hin. rewrite forallb_forall in Hall.
    now rewrite (is_taxonomy_truthy _ (Hall _ Hin)).
Qed.
End FindSameNameProofs.

(** C1. For every target name and every list of taxonomy records,
    [findSameNameTaxonomy] returns the first record whose name is exactly the
    target; when there is none, the last record of the list whose lower-cased
    name is the lower-cased target; and [None] when there is none either.
    With candidates Cocoa, Mac and target mac it returns the record Mac; with
    candidates mac, Mac and target Mac it returns the second record. *)
Theorem findSameNameTaxonomy_first_exact_else_last_lowercase :
  (forall (U : pyunicode) (name : str) (candidates : list json),
      forallb is_taxonomy candidates = true ->
      findSameNameTaxonomy U name (JList candidates)
      = Val (findMatch_spec U name candidates))
  /\ findSameNameTaxonomy ascii_db (lit "mac") (JList [named "Cocoa"; named "Mac"])
     = Val (named "Mac")
  /\ findSameNameTaxonomy ascii_db (lit "Mac") (JList [named "mac"; named "Mac"])
     = Val (named "Mac").
Proof.
  split; [|split].
  - intros U name candidates H. now apply findSameNameTaxonomy_refines.
  - reflexivity.
  - reflexivity.
Qed.

Lemma findSameNameTaxonomy_witness :
  findSameNameTaxonomy ascii_db (lit "gpu")
    (JList [named "Gpu"; named "cpu"; named "GPU"])
  = Val (named "GPU").
Proof.
  exact (proj1 findSameNameTaxonomy_first_exact_else_last_lowercase
           ascii_db (lit "gpu") [named "Gpu"; named "cpu"; named "GPU"]
           eq_refl).
Defined.

(** ** [re.sub] on the two closing patterns of [generateSlug] *)

Section SlugProofs.
Variable U : pyunicode.

Lemma match_here_plus (icase : bool) (k : cset) (bol : bool) (s : str) :
  match_here U icase [Plus k] bol s =
  match run_length (in_cset U icase k) s with
  | O => None
  | S n => Some (S n)
  end.
Proof.
  cbn [match_here].
  induction s as [|c s' IH]; cbn [run_length]; [reflexivity|].
  destruct (in_cset U icase k c); [|reflexivity].
  rewrite IH. destruct (run_length (in_cset U icase k) s'); reflexivity.
Qed.

(** [re.sub("[^\w]", "_", s)] replaces, character by character. *)
Lemma sub_scan_notword (repl : str) (bol : bool) (s : str) :
  sub_scan U false [One CNotWord] repl bol O s =
  flat_map (fun c => if re_word U c then [c] else repl) s.
Proof.
  revert bol; induction s as [|c s' IH]; intros bol; [reflexivity|].
  cbn [sub_scan match_here in_cset flat_map].
  destruct (re_word U c); cbn [negb option_map]; now rewrite IH.
Qed.

(** [re.sub("_+", "_", s)] is [collapse]: outside a match, and inside one,
    with the rest of the run still to be passed over. *)
Lemma sub_scan_underscores (s : str) :
  (forall bol, sub_scan U false [Plus (CChar 95%N)] [95%N] bol O s
               = collapse false s)
  /\ (forall bol,
         sub_scan U false [Plus (CChar 95%N)] [95%N] bol
                  (run_length (N.eqb 95) s) s
         = collapse true s).
Proof.
  induction s as [|c s' [IH0 IH1]]; [split; reflexivity|].
  split; intros bol.
  - cbn [sub_scan]. rewrite match_here_plus.
    cbn [run_length in_cset collapse].
    destruct (N.eqb 95 c) eqn:E.
    + apply N.eqb_eq in E. subst c. cbn [app]. f_equal. apply IH1.
    + f_equal. apply IH0.
  - cbn [run_length collapse].
    destruct (N.eqb 95 c) eqn:E.
    + cbn [sub_scan]. apply IH1.
    + cbn [sub_scan]. rewrite match_here_plus.
      cbn [run_length in_cset]. rewrite E. f_equal. apply IH0.
Qed.

Lemma collapse_Forall (P : char -> Prop) (prev : bool) (s : str) :
  Forall P s -> Forall P (collapse prev s).
Proof.
  intros H; revert prev; induction H as [|c s' Hc Hs IH]; intros prev;
    cbn [collapse]; [constructor|].
  destruct (N.eqb 95 c); [destruct prev|]; auto.
Qed.

Lemma collapse_head (s : str) : hd_error (collapse true s) <> Some 95%N.
Proof.
  induction s as [|c s' IH]; cbn [collapse]; [discriminate|].
  destruct (N.eqb 95 c) eqn:E; [exact IH|].
  cbn. intros [= ->]. discriminate.
Qed.

Lemma collapse_no_double (prev : bool) (s : str) :
  no_double_underscore (collapse prev s).
Proof.
  revert prev; induction s as [|c s' IH]; intros prev; cbn [collapse];
    [exact I|].
  destruct (N.eqb 95 c) eqn:E.
  - destruct prev; [apply IH|].
    pose proof (collapse_head s') as Hh. pose proof (IH true) as Ht.
    destruct (collapse true s') as [|b t]; [exact I|].
    split; [|exact Ht].
    intros [_ ->]. now apply Hh.
  - pose proof (IH false) as Ht.
    destruct (collapse false s') as [|b t]; [exact I|].
    split; [|exact Ht].
    intros [-> _]. discriminate.
Qed.

Hypothesis underscore_is_word : re_word U 95%N = true.

Lemma notword_Forall (s : str) :
  Forall (fun c => re_word U c = true)
         (flat_map (fun c => if re_word U c then [c] else [95%N]) s).
Proof.
  induction s as [|c s' IH]; cbn [flat_map]; [constructor|].
  destruct (re_word U c) eqn:E; cbn [app]; constructor; assumption.
Qed.

Lemma generateSlug_shape (enTitle : str) :
  Forall (fun c => re_word U c = true) (generateSlug U enTitle)
  /\ no_double_underscore (generateSlug U enTitle).
Proof.
  unfold generateSlug. destruct enTitle as [|c t]; cbn [str_truthy negb].
  - split; [constructor|exact I].
  - unfold re_sub.
    rewrite (proj1 (sub_scan_underscores _)), sub_scan_notword.
    split.
    + apply collapse_Forall. apply notword_Forall.
    + apply collapse_no_double.
Qed.
End SlugProofs.

(** ** [generateSlug] *)

(** C4, as the code has it. For every title, the slug holds only word
    characters (letters, digits, underscores) and no two underscores in a
    row; the slug of the empty title is empty; and the title of the docstring
    gives the slug of the docstring. *)
Theorem generateSlug_word_chars_single_underscores :
  (forall U : pyunicode,
      re_word U 95%N = true ->
      forall enTitle : str,
        Forall (fun c => re_word U c = true) (generateSlug U enTitle)
        /\ no_double_underscore (generateSlug U enTitle))
  /\ (forall U : pyunicode, generateSlug U (lit "") = lit "")
  /\ generateSlug ascii_db
       (lit "Give the PIP replacement source to the Mac to speed up the download")
     = lit "give_pip_replacement_source_mac_speed_up_download".
Proof.
  split; [|split].
  - intros U HU enTitle. now apply generateSlug_shape.
  - reflexivity.
  - vm_compute. reflexivity.
Qed.

Lemma generateSlug_shape_witness :
  Forall (fun c => ascii_word c = true)
         (generateSlug ascii_db (lit "Mi Band 4: what's new?"))
  /\ no_double_underscore (generateSlug ascii_db (lit "Mi Band 4: what's new?")).
Proof.
  exact (proj1 generateSlug_word_chars_single_underscores ascii_db eq_refl
           (lit "Mi Band 4: what's new?")).
Defined.

(** C4, as the specification has it, fails: a title that ends in a
    punctuation mark gives a slug that ends in an underscore, and one that
    starts with a punctuation mark a slug that starts with one. *)
Lemma generateSlug_edge_underscores :
  generateSlug ascii_db (lit "hi!") = lit "hi_"
  /\ ~ no_trailing_underscore (generateSlug ascii_db (lit "hi!"))
  /\ generateSlug ascii_db (lit "(draft) hi") = lit "_draft_hi"
  /\ ~ no_leading_underscore (generateSlug ascii_db (lit "(draft) hi")).
Proof.
  repeat split; try (vm_compute; reflexivity);
    intros H; apply H; vm_compute; reflexivity.
Qed.

(** C5. The third step of [generateSlug] does not merge the two fragments of
    a contraction: it puts the two characters U+0001 U+0002 in its place,
    and the slug of "don't" is a single underscore. *)
Theorem slug_contractions_drops_fragments :
  slug_contractions ascii_db (lit "don't") = [1%N; 2%N]
  /\ slug_contractions ascii_db (lit "i can't go") = lit "i " ++ [1%N; 2%N] ++ lit " go"
  /\ generateSlug ascii_db (lit "don't") = lit "_".
Proof.
  repeat split; vm_compute; reflexivity.
Qed.

(** ** [processCommonResponse] *)

Lemma processCommonResponse_not_ok (resp : response) :
  ok resp = false ->
  processCommonResponse resp
  = Val (false, JDict [(lit "errCode", JInt (status_code resp));
                       (lit "errMsg", JStr (text resp))]).
Proof.
  intros H. unfold processCommonResponse. now rewrite H.
Qed.

(** C6, as the code has it. For every response the transport reports as
    failed, the result is [False] with the dict of exactly the two keys
    [errCode], the status code, and [errMsg], the text of the body as it
    came. *)
Theorem processCommonResponse_transport_failure :
  forall resp : response,
    ok resp = false ->
    processCommonResponse resp
    = Val (false, JDict [(lit "errCode", JInt (status_code resp));
                         (lit "errMsg", JStr (text resp))]).
Proof.
  exact processCommonResponse_not_ok.
Qed.

Lemma processCommonResponse_transport_failure_witness :
  processCommonResponse resp_403
  = Val (false, JDict [(lit "errCode", JInt 403);
                       (lit "errMsg", JStr (lit "Expired token"))]).
Proof.
  exact (processCommonResponse_transport_failure resp_403 eq_refl).
Defined.

(** C6, as the specification has it, fails: the keys of the payload are not
    [errorCode] and [errorMessage]. *)
Lemma processCommonResponse_no_errorCode_key :
  processCommonResponse resp_403
  <> Val (false, JDict [(lit "errorCode", JInt 403);
                        (lit "errorMessage", JStr (lit "Expired token"))]).
Proof.
  vm_compute. discriminate.
Qed.

(** C7, as the code has it. For a response the transport reports as
    successful: when the body is JSON but neither a dict nor a list, the
    result is [False] with the empty dict, which no transport failure gives;
    when the body is not JSON, the exception of [resp.json()] leaves
    [processCommonResponse]. *)
Theorem processCommonResponse_malformed :
  forall resp : response,
    ok resp = true ->
    (forall j : json,
        json_body resp = Some j ->
        is_dict_or_list j = false ->
        processCommonResponse resp = Val (false, JDict [])
        /\ forall failed : response,
            ok failed = false ->
            processCommonResponse failed <> processCommonResponse resp)
    /\ (json_body resp = None ->
        processCommonResponse resp = Exc JSONDecodeError).
Proof.
  intros resp Hok. split.
  - intros j Hj Hshape.
    assert (E : processCommonResponse resp = Val (false, JDict [])).
    { unfold processCommonResponse, resp_json. rewrite Hok, Hj. simpl.
      destruct j; try reflexivity; discriminate. }
    split; [exact E|].
    intros failed Hf. rewrite E, (processCommonResponse_not_ok _ Hf).
    discriminate.
  - intros Hj. unfold processCommonResponse, resp_json. now rewrite Hok, Hj.
Qed.

Lemma processCommonResponse_malformed_witness :
  processCommonResponse
    {| ok := true; status_code := 200; text := lit "null";
       json_body := Some JNull |}
  = Val (false, JDict [])
  /\ processCommonResponse resp_200_html = Exc JSONDecodeError.
Proof.
  split.
  - exact (proj1 (proj1 (processCommonResponse_malformed
                           {| ok := true; status_code := 200;
                              text := lit "null"; json_body := Some JNull |}
                           eq_refl) JNull eq_refl eq_refl)).
  - exact (proj2 (processCommonResponse_malformed resp_200_html eq_refl)
             eq_refl).
Defined.

(** C7, as the specification has it, fails: on status 200 with a body that
    is no JSON, [processCommonResponse] returns no result value at all. *)
Lemma processCommonResponse_raises_on_bad_json :
  processCommonResponse resp_200_html = Exc JSONDecodeError
  /\ forall (isOk : bool) (respInfo : json),
       processCommonResponse resp_200_html <> Val (isOk, respInfo).
Proof.
  split; [reflexivity|]. intros isOk respInfo. vm_compute. discriminate.
Qed.

(** ** The HTTP exchange *)

Lemma processCommonResponse_ok_page (r : response) (items : list json) :
  ok_page r items -> processCommonResponse r = Val (true, JList items).
Proof.
  intros [Hok Hj]. unfold processCommonResponse, resp_json.
  now rewrite Hok, Hj.
Qed.

Lemma bind_congr {A B} (c : M A) (k1 k2 : A -> M B) (w : world) :
  (forall (a : A) (w' : world), c w = (Ret a, w') -> k1 a w' = k2 a w') ->
  bind c k1 w = bind c k2 w.
Proof.
  intros H. unfold bind. destruct (c w) as [[a| |] w']; auto.
Qed.

Section ExchangeProofs.
Variable self : crifanWordpress.
Variables name taxonomy : str.

Lemma getTaxonomySinglePage_pops (curPage : Z) (perPage : option Z)
      (w w' : world) (a : bool * json) :
  getTaxonomySinglePage self name taxonomy curPage perPage w = (Ret a, w') ->
  List.length (script w) = S (List.length (script w')).
Proof.
  unfold getTaxonomySinglePage, bind, http.
  destruct (script w) as [|r rest]; [discriminate|].
  unfold lift. destruct (processCommonResponse r); [|discriminate].
  intros [= _ <-]. reflexivity.
Qed.

Lemma getTaxonomySinglePage_run (curPage : Z) (perPage : option Z)
      (r : response) (rest : list response) (s0 : list request) :
  getTaxonomySinglePage self name taxonomy curPage perPage
    {| script := r :: rest; sent := s0 |}
  = lift (processCommonResponse r)
      {| script := rest;
         sent := s0 ++ [getTaxonomySinglePage_request self name taxonomy
                          curPage perPage] |}.
Proof. reflexivity. Qed.

Lemma getTaxonomySinglePage_blocked (curPage : Z) (perPage : option Z)
      (s0 : list request) :
  getTaxonomySinglePage self name taxonomy curPage perPage
    {| script := []; sent := s0 |}
  = (Blocked,
     {| script := [];
        sent := s0 ++ [getTaxonomySinglePage_request self name taxonomy
                         curPage perPage] |}).
Proof. reflexivity. Qed.

Lemma restPages_step (fuel : nat) (perPage : Z) (restCurPage : Z)
      (acc : list json) :
  restPages self (S fuel) name taxonomy perPage true true restCurPage acc
  = ('(isRestEachPageOk, restEachPageRespItemList) <-
       getTaxonomySinglePage self name taxonomy restCurPage (Some perPage) ;;
     '(isRestEachPageRespFull, restRespAllItemList) <-
       (if isRestEachPageOk then
          restEachPageRespItemNum <- lift (py_len restEachPageRespItemList) ;;
          restRespAllItemList <-
            lift (list_extend acc restEachPageRespItemList) ;;
          ret ((perPage <=? Z.of_nat restEachPageRespItemNum)%Z,
               restRespAllItemList)
        else ret (true, acc)) ;;
     restPages self fuel name taxonomy perPage
               isRestEachPageOk isRestEachPageRespFull
               (restCurPage + 1)%Z restRespAllItemList).
Proof. reflexivity. Qed.

Lemma restPages_done (fuel : nat) (perPage : Z) (isOk isFull : bool)
      (restCurPage : Z) (acc : list json) (w : world) :
  isOk && isFull = false ->
  restPages self fuel name taxonomy perPage isOk isFull restCurPage acc w
  = (Ret acc, w).
Proof.
  intros H. destruct fuel; cbn [restPages]; now rewrite H.
Qed.

Lemma page_requests_cons (first n : nat) :
  page_requests self name taxonomy first (S n)
  = getTaxonomySinglePage_request self name taxonomy (Z.of_nat first)
      (Some SearchTagPerPage)
    :: page_requests self name taxonomy (S first) n.
Proof. reflexivity. Qed.

(** The loop on a run of full pages closed by a short page or a failure. *)
Lemma restPages_pages (rs : list response) (pss : list (list json)) :
  Forall2 ok_page rs pss ->
  Forall full_page pss ->
  forall (r_last : response) (p_last : list json) (rest : list response),
    closing_page r_last p_last ->
    forall (fuel p : nat) (acc : list json) (s0 : list request),
      List.length rs < fuel ->
      restPages self fuel name taxonomy SearchTagPerPage true true
                (Z.of_nat p) acc
                {| script := rs ++ r_last :: rest; sent := s0 |}
      = (Ret (acc ++ List.concat pss ++ p_last),
         {| script := rest;
            sent := s0 ++ page_requests self name taxonomy p
                           (S (List.length rs)) |}).
Proof.
  intros Hpages. induction Hpages as [|r ps rs pss Hr Hrs IH];
    intros Hfull r_last p_last rest Hlast fuel p acc s0 Hfuel.
  - destruct fuel as [|fuel]; [inversion Hfuel|].
    rewrite restPages_step. unfold bind at 1. cbn [app].
    rewrite getTaxonomySinglePage_run.
    destruct Hlast as [items Hok Hshort|Hfail].
    + rewrite (processCommonResponse_ok_page _ _ Hok). cbn.
      unfold full_page in Hshort.
      destruct (SearchTagPerPage <=? Z.of_nat (List.length items))%Z eqn:E;
        [apply Z.leb_le in E; contradiction|].
      rewrite restPages_done by reflexivity. reflexivity.
    + rewrite (processCommonResponse_not_ok _ Hfail). cbn.
      rewrite restPages_done by reflexivity. now rewrite app_nil_r.
  - destruct fuel as [|fuel]; [inversion Hfuel|].
    inversion Hfull as [|? ? Hps Hpss]; subst.
    rewrite restPages_step. unfold bind at 1. cbn [app].
    rewrite getTaxonomySinglePage_run.
    rewrite (processCommonResponse_ok_page _ _ Hr). cbn.
    unfold full_page in Hps. apply Z.leb_le in Hps. rewrite Hps.
    replace (Z.of_nat p + 1)%Z with (Z.of_nat (S p)) by lia.
    rewrite (IH Hpss r_last p_last rest Hlast fuel (S p)) by (cbn in Hfuel; lia).
    rewrite page_requests_cons. cbn [List.length].
    now rewrite <- !app_assoc.
Qed.

#[local] Arguments restPages : simpl never.

(** [getAllTaxonomy] when the first page is not full. *)
Lemma getAllTaxonomy_one_page (r1 : response) (items : list json)
      (rest : list response) (s0 : list request) :
  ok_page r1 items ->
  ~ full_page items ->
  getAllTaxonomy self name taxonomy {| script := r1 :: rest; sent := s0 |}
  = (Ret (true, JList items),
     {| script := rest;
        sent := s0 ++ page_requests self name taxonomy 1 1 |}).
Proof.
  intros Hok Hshort. unfold getAllTaxonomy, bind.
  rewrite getTaxonomySinglePage_run.
  rewrite (processCommonResponse_ok_page _ _ Hok). cbn.
  unfold full_page in Hshort.
  destruct (SearchTagPerPage <=? Z.of_nat (List.length items))%Z eqn:E;
    [apply Z.leb_le in E; contradiction|].
  reflexivity.
Qed.

(** [getAllTaxonomy] when the first page is full: the loop runs through
    the full pages that follow, up to the page that closes it. *)
Lemma getAllTaxonomy_more_pages (r1 : response) (ps1 : list json)
      (rs : list response) (pss : list (list json))
      (r_last : response) (p_last : list json)
      (rest : list response) (s0 : list request) :
  ok_page r1 ps1 ->
  full_page ps1 ->
  Forall2 ok_page rs pss ->
  Forall full_page pss ->
  closing_page r_last p_last ->
  getAllTaxonomy self name taxonomy
    {| script := r1 :: rs ++ r_last :: rest; sent := s0 |}
  = (Ret (true, JList (ps1 ++ List.concat pss ++ p_last)),
     {| script := rest;
        sent := s0 ++ page_requests self name taxonomy 1
                       (S (S (List.length rs))) |}).
Proof.
  intros Hok Hfull Hrs Hpss Hlast. unfold getAllTaxonomy, bind.
  rewrite getTaxonomySinglePage_run.
  rewrite (processCommonResponse_ok_page _ _ Hok). cbn.
  unfold full_page in Hfull. apply Z.leb_le in Hfull. rewrite Hfull.
  pose proof (fun fuel =>
                restPages_pages rs pss Hrs Hpss r_last p_last rest Hlast
                                fuel 2 []) as E.
  change (Z.of_nat 2) with 2%Z in E.
  rewrite E by (cbn; rewrite ?length_app; cbn; lia).
  cbn. now rewrite <- app_assoc.
Qed.

(** [getAllTaxonomy] when the first page fails. *)
Lemma getAllTaxonomy_first_page_fails (r1 : response)
      (rest : list response) (s0 : list request) :
  ok r1 = false ->
  getAllTaxonomy self name taxonomy {| script := r1 :: rest; sent := s0 |}
  = (Ret (false, JDict [(lit "errCode", JInt (status_code r1));
                        (lit "errMsg", JStr (text r1))]),
     {| script := rest;
        sent := s0 ++ page_requests self name taxonomy 1 1 |}).
Proof.
  intros Hfail. unfold getAllTaxonomy, bind.
  rewrite getTaxonomySinglePage_run.
  now rewrite (processCommonResponse_not_ok _ Hfail).
Qed.

(** A full page is always followed by the request for the next one: on a
    script of full pages only, the loop is left waiting after it. *)
Lemma restPages_waits (rs : list response) (pss : list (list json)) :
  Forall2 ok_page rs pss ->
  Forall full_page pss ->
  forall (fuel p : nat) (acc : list json) (s0 : list request),
    List.length rs < fuel ->
    restPages self fuel name taxonomy SearchTagPerPage true true
              (Z.of_nat p) acc {| script := rs; sent := s0 |}
    = (Blocked,
       {| script := [];
          sent := s0 ++ page_requests self name taxonomy p
                         (S (List.length rs)) |}).
Proof.
  intros Hpages. induction Hpages as [|r ps rs pss Hr Hrs IH];
    intros Hfull fuel p acc s0 Hfuel.
  - destruct fuel as [|fuel]; [inversion Hfuel|].
    rewrite restPages_step. unfold bind at 1.
    now rewrite getTaxonomySinglePage_blocked.
  - destruct fuel as [|fuel]; [inversion Hfuel|].
    inversion Hfull as [|? ? Hps Hpss]; subst.
    rewrite restPages_step. unfold bind at 1.
    rewrite getTaxonomySinglePage_run.
    rewrite (processCommonResponse_ok_page _ _ Hr). cbn.
    unfold full_page in Hps. apply Z.leb_le in Hps. rewrite Hps.
    replace (Z.of_nat p + 1)%Z with (Z.of_nat (S p)) by lia.
    rewrite (IH Hpss fuel (S p)) by (cbn in Hfuel; lia).
    rewrite page_requests_cons. cbn [List.length].
    now rewrite <- !app_assoc.
Qed.

Lemma getAllTaxonomy_waits (r1 : response) (ps1 : list json)
      (rs : list response) (pss : list (list json)) (s0 : list request) :
  ok_page r1 ps1 ->
  full_page ps1 ->
  Forall2 ok_page rs pss ->
  Forall full_page pss ->
  getAllTaxonomy self name taxonomy {| script := r1 :: rs; sent := s0 |}
  = (Blocked,
     {| script := [];
        sent := s0 ++ page_requests self name taxonomy 1
                       (S (S (List.length rs))) |}).
Proof.
  intros Hok Hfull Hrs Hpss. unfold getAllTaxonomy, bind.
  rewrite getTaxonomySinglePage_run.
  rewrite (processCommonResponse_ok_page _ _ Hok). cbn.
  unfold full_page in Hfull. apply Z.leb_le in Hfull. rewrite Hfull.
  pose proof (fun fuel => restPages_waits rs pss Hrs Hpss fuel 2 []) as E.
  change (Z.of_nat 2) with 2%Z in E.
  rewrite E by (cbn; lia).
  cbn. now rewrite <- app_assoc.
Qed.

(** The bound on the turns of the loop never ends a run: any two bounds
    above the number of responses left give the same run. *)
Lemma restPages_fuel_enough (fuel1 : nat) :
  forall (fuel2 : nat) (perPage : Z) (isOk isFull : bool) (restCurPage : Z)
         (acc : list json) (w : world),
    List.length (script w) < fuel1 ->
    List.length (script w) < fuel2 ->
    restPages self fuel1 name taxonomy perPage isOk isFull restCurPage acc w
    = restPages self fuel2 name taxonomy perPage isOk isFull restCurPage acc w.
Proof.
  induction fuel1 as [|fuel1 IH];
    intros fuel2 perPage isOk isFull restCurPage acc w H1 H2;
    [inversion H1|].
  destruct fuel2 as [|fuel2]; [inversion H2|].
  destruct (isOk && isFull) eqn:E; [|now rewrite !restPages_done].
  apply andb_true_iff in E. destruct E as [-> ->].
  rewrite !restPages_step.
  apply bind_congr. intros [isOk' items] w1 Hpage.
  apply getTaxonomySinglePage_pops in Hpage.
  apply bind_congr. intros [isFull' acc'] w2 Hpure.
  assert (w2 = w1) as ->.
  { destruct isOk'; [|now inversion Hpure].
    unfold bind, lift, ret in Hpure.
    destruct (py_len items); [|discriminate].
    destruct (list_extend acc items); [|discriminate].
    now inversion Hpure. }
  apply IH; lia.
Qed.
End ExchangeProofs.

(** ** [getAllTaxonomy] *)

(** The requests for the pages are GETs, and the query of each is the name,
    its page number and 100 items a page. *)
Lemma page_requests_content (self : crifanWordpress) (name taxonomy : str)
      (first n : nat) :
  map meth (page_requests self name taxonomy first n) = repeat GET n
  /\ map params (page_requests self name taxonomy first n)
     = map (page_query name) (seq first n).
Proof.
  unfold page_requests. rewrite !map_map. split.
  - revert first; induction n as [|n IH]; intros first; [reflexivity|].
    cbn [seq map repeat]. f_equal. apply IH.
  - apply map_ext. intros p. reflexivity.
Qed.

(** C9. For every fetch whose pages all succeed, with pages of 100:
    [getAllTaxonomy] asks for pages 1, 2, ... in order, one request each, goes
    on to page n+1 exactly when page n held at least 100 items, returns the
    pages put end to end, and stops at the first page of fewer than 100 items,
    leaving the responses behind it untouched.  When page 1 holds exactly 100
    items and page 2 none, two requests are made and 100 items returned.
    The request for page p is a GET whose query is the name under [search],
    p under [page] and 100 under [per_page]. *)
Theorem getAllTaxonomy_fetches_until_short_page :
  forall (self : crifanWordpress) (name taxonomy : str),
    (forall (rs : list response) (pss : list (list json))
            (r_last : response) (p_last : list json)
            (rest : list response) (s0 : list request),
        Forall2 ok_page rs pss ->
        Forall full_page pss ->
        ok_page r_last p_last ->
        ~ full_page p_last ->
        getAllTaxonomy self name taxonomy
          {| script := rs ++ r_last :: rest; sent := s0 |}
        = (Ret (true, JList (List.concat pss ++ p_last)),
           {| script := rest;
              sent := s0 ++ page_requests self name taxonomy 1
                             (S (List.length rs)) |}))
    /\ (forall (r1 : response) (rs : list response) (pss : list (list json))
               (s0 : list request),
           Forall2 ok_page (r1 :: rs) pss ->
           Forall full_page pss ->
           getAllTaxonomy self name taxonomy
             {| script := r1 :: rs; sent := s0 |}
           = (Blocked,
              {| script := [];
                 sent := s0 ++ page_requests self name taxonomy 1
                                (S (S (List.length rs))) |}))
    /\ (forall (r1 r2 : response) (items : list json)
               (rest : list response) (s0 : list request),
           ok_page r1 items ->
           List.length items = 100 ->
           ok_page r2 [] ->
           getAllTaxonomy self name taxonomy
             {| script := r1 :: r2 :: rest; sent := s0 |}
           = (Ret (true, JList items),
              {| script := rest;
                 sent := s0 ++ page_requests self name taxonomy 1 2 |}))
    /\ (forall first n : nat,
           map meth (page_requests self name taxonomy first n) = repeat GET n
           /\ map params (page_requests self name taxonomy first n)
              = map (fun p => [(lit "search", JStr name);
                               (lit "page", JInt (Z.of_nat p));
                               (lit "per_page", JInt 100)])
                    (seq first n)).
Proof.
  intros self name taxonomy. split; [|split; [|split]];
    [| | |exact (page_requests_content self name taxonomy)].
  - intros rs pss r_last p_last rest s0 Hrs Hpss Hlast Hshort.
    destruct Hrs as [|r1 ps1 rs pss Hr1 Hrs].
    + now apply getAllTaxonomy_one_page.
    + inversion Hpss as [|? ? Hps1 Hpss']; subst.
      cbn [app List.concat List.length]. rewrite <- app_assoc.
      apply getAllTaxonomy_more_pages; try assumption.
      now apply closing_short.
  - intros r1 rs pss s0 Hrs Hpss.
    inversion Hrs as [|? ps1 ? pss' Hr1 Hrs']; subst.
    inversion Hpss as [|? ? Hps1 Hpss']; subst.
    now apply getAllTaxonomy_waits with (ps1 := ps1) (pss := pss').
  - intros r1 r2 items rest s0 Hr1 Hlen Hr2.
    pose proof (getAllTaxonomy_more_pages self name taxonomy r1 items
                  [] [] r2 [] rest s0 Hr1) as E.
    cbn [app List.concat List.length] in E. rewrite app_nil_r in E.
    apply E.
    + unfold full_page, SearchTagPerPage. rewrite Hlen. discriminate.
    + constructor.
    + constructor.
    + apply closing_short; [exact Hr2|].
      unfold full_page, SearchTagPerPage. cbn. lia.
Qed.

Lemma getAllTaxonomy_fetches_witness :
  getAllTaxonomy crifan_org (lit "Mac") (lit "category")
    {| script := [page_of (repeat (named "Mac mini") 100);
                  page_of [named "Mac"];
                  resp_500];
       sent := [] |}
  = (Ret (true, JList (repeat (named "Mac mini") 100 ++ [named "Mac"])),
     {| script := [resp_500];
        sent := page_requests crifan_org (lit "Mac") (lit "category") 1 2 |}).
Proof.
  refine (proj1 (getAllTaxonomy_fetches_until_short_page
                   crifan_org (lit "Mac") (lit "category"))
            [page_of (repeat (named "Mac mini") 100)]
            [repeat (named "Mac mini") 100]
            (page_of [named "Mac"]) [named "Mac"] [resp_500] [] _ _ _ _).
  - repeat constructor.
  - repeat constructor. vm_compute. discriminate.
  - split; reflexivity.
  - vm_compute. intros H. now apply H.
Defined.

(** C2. [getAllTaxonomy] does not report the failure of a later page: with a
    first page of 100 records and a second request that fails with status
    500, it returns [True] with the 100 records of the first page. *)
Theorem getAllTaxonomy_later_failure_reported_ok :
  getAllTaxonomy crifan_org (lit "Mac") (lit "category")
    {| script := [page_of (repeat (named "Mac mini") 100); resp_500];
       sent := [] |}
  = (Ret (true, JList (repeat (named "Mac mini") 100)),
     {| script := [];
        sent := page_requests crifan_org (lit "Mac") (lit "category") 1 2 |}).
Proof.
  vm_compute. reflexivity.
Qed.

(** ** The URL of an unknown taxonomy *)

Lemma http_sent (req : request) (w : world) :
  sent (snd (http req w)) = sent w ++ [req].
Proof.
  unfold http. destruct (script w); reflexivity.
Qed.

Lemma http_then_lift_sent {A} (req : request) (f : response -> result A)
      (w : world) :
  sent (snd ((resp <- http req ;; lift (f resp)) w)) = sent w ++ [req].
Proof.
  unfold bind, http. destruct (script w) as [|r rest]; [reflexivity|].
  cbn. destruct (f r); reflexivity.
Qed.




(** ** [getTaxonomyIdList] *)

Lemma getitem_truthy (t v : json) (k : str) :
  getitem t k = Val v -> truthy t = true.
Proof.
  destruct t as [ | | | | | |d]; try discriminate.
  destruct d; [discriminate|reflexivity].
Qed.

Lemma createTaxonomy_sent (self : crifanWordpress) (name taxonomy : str)
      (parent slug description : json) (w : world) :
  sent (snd (createTaxonomy self name taxonomy parent slug description w))
  = sent w ++ [createTaxonomy_request self name taxonomy
                 parent slug description].
Proof. apply http_then_lift_sent. Qed.

Lemma ids_of_length (os : list (option json)) :
  List.length (ids_of os) <= List.length os.
Proof.
  induction os as [|[i|] os IH]; cbn; lia.
Qed.

Lemma ids_of_shorter (os : list (option json)) :
  List.length (ids_of os) < List.length os <-> In None os.
Proof.
  induction os as [|[i|] os IH]; cbn.
  - split; [lia|tauto].
  - rewrite <- Nat.succ_lt_mono, IH. split; [tauto|].
    intros [H|H]; [discriminate|exact H].
  - pose proof (ids_of_length os). split; [tauto|lia].
Qed.

Section ResolveProofs.
Variable U : pyunicode.
Variable self : crifanWordpress.
Variable taxonomy : str.

#[local] Arguments searchTaxonomy : simpl never.
#[local] Arguments createTaxonomy : simpl never.

Lemma log_taxonomy_record (t i : json) :
  record_with_id t i -> log_taxonomy t = Val tt.
Proof.
  intros (n & sl & Hn & Hi & Hsl). unfold log_taxonomy.
  now rewrite Hn, Hi, Hsl.
Qed.

Lemma record_truthy (t i : json) : record_with_id t i -> truthy t = true.
Proof.
  intros (n & sl & Hn & _). now apply getitem_truthy in Hn.
Qed.

Lemma resolveName_found (ids : list json) (name : str) (w w1 : world)
      (t i : json) :
  searchTaxonomy U self name taxonomy w = (Ret (true, t), w1) ->
  record_with_id t i ->
  resolveName U self taxonomy ids name w = (Ret (ids ++ [i]), w1).
Proof.
  intros Hs Hrec. unfold resolveName, bind. rewrite Hs.
  rewrite (record_truthy t i Hrec). cbn [andb].
  rewrite (log_taxonomy_record t i Hrec). cbn [lift ret].
  rewrite (record_truthy t i Hrec).
  destruct Hrec as (n & sl & _ & Hi & _). now rewrite Hi.
Qed.

Lemma resolveName_created (ids : list json) (name : str) (w w1 w2 : world)
      (isSearhOk : bool) (t c i : json) :
  searchTaxonomy U self name taxonomy w = (Ret (isSearhOk, t), w1) ->
  isSearhOk && truthy t = false ->
  createTaxonomy self name taxonomy JNull JNull JNull w1
  = (Ret (true, c), w2) ->
  record_with_id c i ->
  resolveName U self taxonomy ids name w = (Ret (ids ++ [i]), w2).
Proof.
  intros Hs Hno Hc Hrec. unfold resolveName, bind. rewrite Hs, Hno, Hc.
  rewrite (record_truthy c i Hrec). cbn [andb].
  rewrite (log_taxonomy_record c i Hrec). cbn [lift ret].
  rewrite (record_truthy c i Hrec).
  destruct Hrec as (n & sl & _ & Hi & _). now rewrite Hi.
Qed.

Lemma resolveName_failed (ids : list json) (name : str) (w w1 w2 : world)
      (isSearhOk isCreateOk : bool) (t c : json) :
  searchTaxonomy U self name taxonomy w = (Ret (isSearhOk, t), w1) ->
  isSearhOk && truthy t = false ->
  createTaxonomy self name taxonomy JNull JNull JNull w1
  = (Ret (isCreateOk, c), w2) ->
  isCreateOk && truthy c = false ->
  resolveName U self taxonomy ids name w = (Ret ids, w2).
Proof.
  intros Hs Hno Hc Hfail. unfold resolveName, bind.
  now rewrite Hs, Hno, Hc, Hfail.
Qed.

(** Whatever the search returned, a creation request follows exactly when
    it gave no record. *)
Lemma resolveName_sent (ids : list json) (name : str) (w w1 : world)
      (isSearhOk : bool) (t : json) :
  searchTaxonomy U self name taxonomy w = (Ret (isSearhOk, t), w1) ->
  sent (snd (resolveName U self taxonomy ids name w))
  = sent w1 ++
    (if isSearhOk && truthy t then []
     else [createTaxonomy_request self name taxonomy JNull JNull JNull]).
Proof.
  intros Hs. unfold resolveName, bind. rewrite Hs.
  destruct (isSearhOk && truthy t).
  - rewrite app_nil_r.
    destruct (log_taxonomy t); cbn [lift ret snd]; [|reflexivity].
    destruct (truthy t); [|reflexivity].
    destruct (getitem t (lit "id")); reflexivity.
  - pose proof (createTaxonomy_sent self name taxonomy JNull JNull JNull w1)
      as Hsent.
    destruct (createTaxonomy self name taxonomy JNull JNull JNull w1)
      as [[[isCreateOk c]| |] w2]; cbn [snd] in Hsent |- *;
      try exact Hsent.
    destruct (isCreateOk && truthy c); cbn [ret]; [|exact Hsent].
    destruct (log_taxonomy c); cbn [lift ret snd]; [|exact Hsent].
    destruct (truthy c); [|exact Hsent].
    destruct (getitem c (lit "id")); exact Hsent.
Qed.

(** Two failures in a row, of the search and of the creation, leave the name
    without an id, and nothing is raised. *)
Lemma name_run_both_fail (name : str) (r1 r2 : response)
      (rest : list response) (s0 : list request) :
  ok r1 = false ->
  ok r2 = false ->
  name_run U self taxonomy name {| script := r1 :: r2 :: rest; sent := s0 |}
    None
    {| script := rest;
       sent := (s0 ++ page_requests self name taxonomy 1 1)
               ++ [createTaxonomy_request self name taxonomy JNull JNull JNull] |}.
Proof.
  intros H1 H2.
  apply run_failed
    with (isSearhOk := false) (isCreateOk := false) (t := JNull)
         (c := JDict [(lit "errCode", JInt (status_code r2));
                      (lit "errMsg", JStr (text r2))])
         (w1 := {| script := r2 :: rest;
                   sent := s0 ++ page_requests self name taxonomy 1 1 |}).
  - unfold searchTaxonomy, bind.
    now rewrite (getAllTaxonomy_first_page_fails self name taxonomy r1
                   (r2 :: rest) s0 H1).
  - reflexivity.
  - unfold createTaxonomy, bind, http. cbn [script sent].
    now rewrite (processCommonResponse_not_ok r2 H2).
  - reflexivity.
Qed.

Lemma resolveName_run (name : str) (w w' : world) (o : option json) :
  name_run U self taxonomy name w o w' ->
  forall ids : list json,
    resolveName U self taxonomy ids name w = (Ret (ids ++ ids_of [o]), w').
Proof.
  intros [t i w1 Hs Hrec
         |isSearhOk t c i w1 w2 Hs Hno Hc Hrec
         |isSearhOk isCreateOk t c w1 w2 Hs Hno Hc Hfail] ids; cbn [ids_of].
  - now apply resolveName_found with (t := t).
  - now apply resolveName_created with (w1 := w1) (isSearhOk := isSearhOk)
                                       (t := t) (c := c).
  - rewrite app_nil_r.
    now apply resolveName_failed with (w1 := w1) (isSearhOk := isSearhOk)
                                      (isCreateOk := isCreateOk)
                                      (t := t) (c := c).
Qed.

Lemma resolveNames_run (names : list str) (w w' : world)
      (os : list (option json)) :
  batch_run U self taxonomy names w os w' ->
  forall ids : list json,
    resolveNames U self taxonomy ids names w = (Ret (ids ++ ids_of os), w').
Proof.
  intros Hrun. induction Hrun as [w|name names w w1 w2 o os Hname Hrest IH];
    intros ids; cbn [resolveNames].
  - cbn. now rewrite app_nil_r.
  - unfold bind. rewrite (resolveName_run name w w1 o Hname ids).
    rewrite IH. f_equal. f_equal. rewrite <- app_assoc. f_equal.
    destruct o; reflexivity.
Qed.

Lemma batch_run_length (names : list str) (w w' : world)
      (os : list (option json)) :
  batch_run U self taxonomy names w os w' ->
  List.length os = List.length names.
Proof.
  intros Hrun. induction Hrun; cbn; congruence.
Qed.

(** Nothing catches what the resolution of a name raises. *)
Lemma resolveName_raises (name : str) (w w' : world) (e : exn) :
  name_raises U self taxonomy name w e w' ->
  forall ids : list json,
    resolveName U self taxonomy ids name w = (Raise e, w').
Proof.
  intros [e' w1 Hs
         |t e' w1 Hs Ht Hlog
         |isSearhOk t e' w1 w2 Hs Hno Hc
         |isSearhOk t c e' w1 w2 Hs Hno Hc Htc Hlog] ids;
    unfold resolveName, bind; rewrite Hs.
  - reflexivity.
  - rewrite Ht. cbn [andb]. now rewrite Hlog.
  - now rewrite Hno, Hc.
  - rewrite Hno, Hc, Htc. cbn [andb]. now rewrite Hlog.
Qed.

Lemma resolveNames_raises (done : list str) (name : str) (todo : list str)
      (w w1 w2 : world) (os : list (option json)) (e : exn) :
  batch_run U self taxonomy done w os w1 ->
  name_raises U self taxonomy name w1 e w2 ->
  forall ids : list json,
    resolveNames U self taxonomy ids (done ++ name :: todo) w = (Raise e, w2).
Proof.
  intros Hrun Hraise.
  induction Hrun as [w|n names w wa wb o os Hname Hrest IH]; intros ids;
    cbn [app resolveNames]; unfold bind.
  - now rewrite (resolveName_raises name w w2 e Hraise ids).
  - rewrite (resolveName_run n w wa o Hname ids). now apply IH.
Qed.
End ResolveProofs.

(** C8, as the code has it. For every list of names: when the search and
    the creation made for each name return a result, failed or not, and the
    records found or created carry name, id and slug, [getTaxonomyIdList]
    returns, and its list holds, in the order of the names, the ids of the
    names that were found or created; a name whose search and creation both
    gave nothing is left out and the names after it are still processed; the
    list is no longer than the list of names, and shorter exactly when some
    name was left out.  When the resolution of a name raises, in the search,
    in the creation or on a record without name, id or slug,
    [getTaxonomyIdList] raises the same exception there and the names after
    it are not processed. *)
Theorem getTaxonomyIdList_continues_past_failures :
  forall (U : pyunicode) (self : crifanWordpress) (taxonomy : str),
    (forall (nameList : list str) (w w' : world) (outs : list (option json)),
        batch_run U self taxonomy nameList w outs w' ->
        getTaxonomyIdList U self nameList taxonomy w = (Ret (ids_of outs), w')
        /\ List.length (ids_of outs) <= List.length nameList
        /\ (List.length (ids_of outs) < List.length nameList
            <-> In None outs))
    /\ (forall (done : list str) (name : str) (todo : list str)
               (w w1 w2 : world) (outs : list (option json)) (e : exn),
           batch_run U self taxonomy done w outs w1 ->
           name_raises U self taxonomy name w1 e w2 ->
           getTaxonomyIdList U self (done ++ name :: todo) taxonomy w
           = (Raise e, w2)).
Proof.
  intros U self taxonomy. split.
  - intros nameList w w' outs Hrun.
    pose proof (batch_run_length U self taxonomy nameList w w' outs Hrun)
      as Hlen.
    split; [|split].
    + unfold getTaxonomyIdList.
      now rewrite (resolveNames_run U self taxonomy nameList w w' outs Hrun []).
    + rewrite <- Hlen. apply ids_of_length.
    + rewrite <- Hlen. apply ids_of_shorter.
  - intros done name todo w w1 w2 outs e Hrun Hraise.
    unfold getTaxonomyIdList.
    now apply resolveNames_raises with (w1 := w1) (os := outs).
Qed.

Lemma getTaxonomyIdList_witness :
  getTaxonomyIdList ascii_db crifan_org [lit "Mac"; lit "GPU"; lit "mac"]
    (lit "category")
    {| script := [page_of [record_cocoa; record_mac];
                  resp_403; resp_403;
                  page_of [record_cocoa; record_mac]];
       sent := [] |}
  = (Ret [JInt 1374; JInt 1374],
     {| script := [];
        sent :=
          [getTaxonomySinglePage_request crifan_org (lit "Mac")
             (lit "category") 1 (Some SearchTagPerPage);
           getTaxonomySinglePage_request crifan_org (lit "GPU")
             (lit "category") 1 (Some SearchTagPerPage);
           createTaxonomy_request crifan_org (lit "GPU") (lit "category")
             JNull JNull JNull;
           getTaxonomySinglePage_request crifan_org (lit "mac")
             (lit "category") 1 (Some SearchTagPerPage)] |}).
Proof.
  refine (proj1 (proj1 (getTaxonomyIdList_continues_past_failures
                          ascii_db crifan_org (lit "category"))
                   [lit "Mac"; lit "GPU"; lit "mac"] _ _
                   [Some (JInt 1374); None; Some (JInt 1374)] _)).
  eapply batch_cons.
  { eapply run_found; [vm_compute; reflexivity|].
    exists (JStr (lit "Mac")), (JStr (lit "mac")). repeat split. }
  eapply batch_cons.
  { eapply run_failed; [vm_compute; reflexivity | reflexivity
                        | vm_compute; reflexivity | reflexivity]. }
  eapply batch_cons.
  { eapply run_found; [vm_compute; reflexivity|].
    exists (JStr (lit "Mac")), (JStr (lit "mac")). repeat split. }
  apply batch_nil.
Defined.

(** C8, as the specification has it, fails: the tag GPU is not found and its
    creation is answered with status 200 and an object without id, and
    [getTaxonomyIdList] raises [KeyError] with the name Mac still to be
    processed; and a search answered with status 200 and a body that is no
    JSON makes it raise at once. *)
Lemma getTaxonomyIdList_raises_on_malformed_answer :
  getTaxonomyIdList ascii_db crifan_org [lit "GPU"; lit "Mac"]
    (lit "post_tag")
    {| script := [page_of []; resp_200_no_id;
                  page_of [record_cocoa; record_mac]];
       sent := [] |}
  = (Raise (KeyError (lit "name")),
     {| script := [page_of [record_cocoa; record_mac]];
        sent :=
          [getTaxonomySinglePage_request crifan_org (lit "GPU")
             (lit "post_tag") 1 (Some SearchTagPerPage);
           createTaxonomy_request crifan_org (lit "GPU") (lit "post_tag")
             JNull JNull JNull] |})
  /\ getTaxonomyIdList ascii_db crifan_org [lit "GPU"; lit "Mac"]
       (lit "post_tag")
       {| script := [resp_200_html; page_of [record_cocoa; record_mac]];
          sent := [] |}
     = (Raise JSONDecodeError,
        {| script := [page_of [record_cocoa; record_mac]];
           sent :=
             [getTaxonomySinglePage_request crifan_org (lit "GPU")
                (lit "post_tag") 1 (Some SearchTagPerPage)] |}).
Proof.
  split; vm_compute; reflexivity.
Qed.

(** C3, as the code has it. For every name, after the search: a creation
    request follows exactly when the search gave no record, whether it
    succeeded and found none or failed; and after a failed search the name
    is left out when the creation gives nothing, and its new id is added
    when the creation gives a record. *)
Theorem resolveName_creates_after_failed_search :
  forall (U : pyunicode) (self : crifanWordpress) (taxonomy : str)
         (taxonomyIdList : list json) (name : str) (w w1 : world)
         (isSearhOk : bool) (t : json),
    searchTaxonomy U self name taxonomy w = (Ret (isSearhOk, t), w1) ->
    sent (snd (resolveName U self taxonomy taxonomyIdList name w))
    = sent w1 ++
      (if isSearhOk && truthy t then []
       else [createTaxonomy_request self name taxonomy JNull JNull JNull])
    /\ (isSearhOk = false ->
        (forall (isCreateOk : bool) (c : json) (w2 : world),
            createTaxonomy self name taxonomy JNull JNull JNull w1
            = (Ret (isCreateOk, c), w2) ->
            isCreateOk && truthy c = false ->
            resolveName U self taxonomy taxonomyIdList name w
            = (Ret taxonomyIdList, w2))
        /\ (forall (c i : json) (w2 : world),
               createTaxonomy self name taxonomy JNull JNull JNull w1
               = (Ret (true, c), w2) ->
               record_with_id c i ->
               resolveName U self taxonomy taxonomyIdList name w
               = (Ret (taxonomyIdList ++ [i]), w2))).
Proof.
  intros U self taxonomy taxonomyIdList name w w1 isSearhOk t Hs. split.
  - now apply resolveName_sent.
  - intros ->. split.
    + intros isCreateOk c w2 Hc Hfail.
      now apply resolveName_failed with (w1 := w1) (isSearhOk := false)
                                        (isCreateOk := isCreateOk)
                                        (t := t) (c := c).
    + intros c i w2 Hc Hrec.
      now apply resolveName_created with (w1 := w1) (isSearhOk := false)
                                         (t := t) (c := c).
Qed.

Lemma resolveName_creates_witness :
  sent (snd (resolveName ascii_db crifan_org (lit "post_tag") [JInt 1367]
               (lit "GPU")
               {| script := [resp_403; resp_created_gpu]; sent := [] |}))
  = [getTaxonomySinglePage_request crifan_org (lit "GPU") (lit "post_tag")
       1 (Some SearchTagPerPage);
     createTaxonomy_request crifan_org (lit "GPU") (lit "post_tag")
       JNull JNull JNull].
Proof.
  refine (proj1 (resolveName_creates_after_failed_search
                   ascii_db crifan_org (lit "post_tag") [JInt 1367] (lit "GPU")
                   {| script := [resp_403; resp_created_gpu]; sent := [] |}
                   {| script := [resp_created_gpu];
                      sent := [getTaxonomySinglePage_request crifan_org
                                 (lit "GPU") (lit "post_tag") 1
                                 (Some SearchTagPerPage)] |}
                   false JNull _)).
  vm_compute. reflexivity.
Defined.

(** C3, as the specification has it, fails: the search for GPU fails with
    status 403, a creation request is sent all the same, and the id of the
    created tag is in the list. *)
Lemma getTaxonomyIdList_creates_after_failed_search :
  getTaxonomyIdList ascii_db crifan_org [lit "GPU"] (lit "post_tag")
    {| script := [resp_403; resp_created_gpu]; sent := [] |}
  = (Ret [JInt 13224],
     {| script := [];
        sent :=
          [getTaxonomySinglePage_request crifan_org (lit "GPU")
             (lit "post_tag") 1 (Some SearchTagPerPage);
           createTaxonomy_request crifan_org (lit "GPU") (lit "post_tag")
             JNull JNull JNull] |}).
Proof.
  vm_compute. reflexivity.
Qed.

(** ** Dicts *)

Lemma dict_has_keys (d : list (str * json)) (k : str) :
  dict_has d k = true -> In k (map fst d).
Proof.
  unfold dict_has. induction d as [|[k' v] d IH]; cbn [dict_get map fst];
    [discriminate|].
  destruct (str_eqb k' k) eqn:E.
  - intros _. left. now apply str_eqb_eq.
  - intros H. right. now apply IH.
Qed.

Lemma dict_get_set_same (d : list (str * json)) (k : str) (v : json) :
  dict_get (dict_set d k v) k = Some v.
Proof.
  induction d as [|[k' v'] d IH]; cbn [dict_set dict_get].
  - now rewrite str_eqb_refl.
  - destruct (str_eqb k' k) eqn:E; cbn [dict_get]; now rewrite E.
Qed.

Lemma dict_get_set_other (d : list (str * json)) (k k' : str) (v : json) :
  str_eqb k k' = false ->
  dict_get (dict_set d k v) k' = dict_get d k'.
Proof.
  intros Hk. induction d as [|[k0 v0] d IH]; cbn [dict_set dict_get].
  - now rewrite Hk.
  - destruct (str_eqb k0 k) eqn:E; cbn [dict_get].
    + apply str_eqb_eq in E. subst k0. now rewrite Hk.
    + now rewrite IH.
Qed.

(** ** [processCommonResponse] on a successful response *)

(** Case analysis on the lookups a hypothesis holds. *)
Ltac lookups H :=
  repeat (cbn [rbind getitem] in H;
          match type of H with
          | Exc _ = Val _ => discriminate H
          | context [dict_get ?d ?k] => destruct (dict_get d k) eqn:?
          | context [getitem ?v ?k] => destruct (getitem v k) eqn:?
          | context [if ?b then _ else _] => destruct b eqn:?
          end).

Ltac settle :=
  repeat match goal with
         | |- _ /\ _ => split
         | |- forall _, _ => intro
         | H : false = true |- _ => discriminate H
         | |- exists _, _ => eexists
         | |- _ = _ => first [reflexivity | eassumption]
         end.

(** Everything the payload built from an object with an id holds. *)
Lemma processCommonResponse_with_id (resp : response) (d : list (str * json))
      (isOk : bool) (info : json) :
  ok resp = true ->
  json_body resp = Some (JDict d) ->
  dict_has d (lit "id") = true ->
  processCommonResponse resp = Val (isOk, info) ->
  isOk = true
  /\ exists fields : list (str * json),
      info = JDict fields
      /\ (dict_get fields (lit "id") = dict_get d (lit "id")
          /\ dict_get fields (lit "slug") = dict_get d (lit "slug")
          /\ dict_get fields (lit "link") = dict_get d (lit "link"))
      /\ (dict_has fields (lit "url") = is_media d
          /\ dict_has fields (lit "title") = is_media d
          /\ dict_has fields (lit "name") = dict_has d (lit "taxonomy")
          /\ dict_has fields (lit "description") = dict_has d (lit "taxonomy")
          /\ dict_has fields (lit "parent") = is_category d)
      /\ (dict_has d (lit "taxonomy") = true ->
          dict_get fields (lit "name") = dict_get d (lit "name")
          /\ dict_get fields (lit "description")
             = dict_get d (lit "description"))
      /\ (is_category d = true ->
          dict_get fields (lit "parent") = dict_get d (lit "parent"))
      /\ (is_media d = true ->
          exists guid title url_ title_ : json,
            dict_get d (lit "guid") = Some guid
            /\ getitem guid (lit "rendered") = Val url_
            /\ dict_get fields (lit "url") = Some url_
            /\ dict_get d (lit "title") = Some title
            /\ getitem title (lit "rendered") = Val title_
            /\ dict_get fields (lit "title") = Some title_)
      /\ (forall k : str, dict_has fields k = true -> In k extracted_keys).
Proof.
  intros Hok Hj Hid H.
  unfold processCommonResponse, resp_json in H. rewrite Hok, Hj in H.
  cbn [rbind] in H. rewrite Hid in H.
  unfold is_media, is_category.
  unfold dict_has in Hid, H |- *.
  lookups H.
  all: injection H as <- <-.
  all: split; [reflexivity|].
  all: eexists; split; [reflexivity|].
  all: do 5 (split; [solve [settle]|]).
  all: intros k Hk; apply (dict_has_keys _ k) in Hk;
    unfold extracted_keys; cbn [map fst In] in Hk |- *; tauto.
Qed.

Lemma processCommonResponse_without_id (resp : response)
      (d : list (str * json)) :
  ok resp = true ->
  json_body resp = Some (JDict d) ->
  dict_has d (lit "id") = false ->
  processCommonResponse resp = Val (true, JDict d).
Proof.
  intros Hok Hj Hid. unfold processCommonResponse, resp_json.
  rewrite Hok, Hj. cbn [rbind]. now rewrite Hid.
Qed.

(** X1. Whatever the response, a result that [processCommonResponse]
    returns has one of three shapes: [True] with a dict or a list, when the
    transport succeeded and the body is a JSON object or array (an array and
    an object without id are the body itself); [False] with the empty dict,
    when the transport succeeded and the body is another JSON value; [False]
    with the dict of [errCode] and [errMsg], when the transport failed. *)
Theorem processCommonResponse_result_shape :
  forall (resp : response) (isOk : bool) (info : json),
    processCommonResponse resp = Val (isOk, info) ->
    (isOk = true /\ ok resp = true
     /\ is_dict_or_list info = true
     /\ exists j : json,
         json_body resp = Some j /\ is_dict_or_list j = true
         /\ (forall l, j = JList l -> info = j)
         /\ (forall d, j = JDict d -> dict_has d (lit "id") = false -> info = j))
    \/ (isOk = false /\ ok resp = true /\ info = JDict []
        /\ exists j : json,
            json_body resp = Some j /\ is_dict_or_list j = false)
    \/ (isOk = false /\ ok resp = false
        /\ info = JDict [(lit "errCode", JInt (status_code resp));
                         (lit "errMsg", JStr (text resp))]).
Proof.
  intros resp isOk info H.
  destruct (ok resp) eqn:Hok.
  - destruct (json_body resp) as [j|] eqn:Hj;
      [|unfold processCommonResponse, resp_json in H;
        rewrite Hok, Hj in H; discriminate].
    destruct (is_dict_or_list j) eqn:Hshape.
    + left. destruct j as [ | | | | |l|d]; try discriminate.
      * unfold processCommonResponse, resp_json in H.
        rewrite Hok, Hj in H. injection H as <- <-.
        split; [reflexivity|]. split; [reflexivity|]. split; [reflexivity|].
        exists (JList l). split; [reflexivity|]. split; [reflexivity|].
        split; [reflexivity|]. intros d [=].
      * destruct (dict_has d (lit "id")) eqn:Hid.
        -- destruct (processCommonResponse_with_id resp d isOk info
                       Hok Hj Hid H) as (-> & fields & -> & _).
           split; [reflexivity|]. split; [reflexivity|]. split; [reflexivity|].
           exists (JDict d). split; [reflexivity|]. split; [reflexivity|].
           split; [intros l [=]|].
           intros d0 [= <-] Hno. rewrite Hid in Hno. discriminate.
        -- rewrite (processCommonResponse_without_id resp d Hok Hj Hid) in H.
           injection H as <- <-.
           split; [reflexivity|]. split; [reflexivity|]. split; [reflexivity|].
           exists (JDict d). split; [reflexivity|]. split; [reflexivity|].
           split; [intros l [=]|reflexivity].
    + right. left.
      unfold processCommonResponse, resp_json in H. rewrite Hok, Hj in H.
      destruct j; try discriminate; injection H as <- <-;
        (split; [reflexivity|]; split; [reflexivity|]; split; [reflexivity|];
         eexists; split; reflexivity).
  - right. right.
    rewrite (processCommonResponse_not_ok resp Hok) in H.
    injection H as <- <-. split; [reflexivity|]. split; reflexivity.
Qed.

Lemma processCommonResponse_result_shape_witness :
  is_dict_or_list (JList [record_cocoa; record_mac]) = true.
Proof.
  destruct (processCommonResponse_result_shape
              (page_of [record_cocoa; record_mac]) true
              (JList [record_cocoa; record_mac]) eq_refl)
    as [(_ & _ & H & _)|[(H & _)|(H & _)]];
    [exact H|discriminate H|discriminate H].
Defined.

(** X2. From a JSON object that has an id, [processCommonResponse] copies
    [id], [slug] and [link] as they are, and the payload holds no key besides
    [id], [slug], [link], [url], [title], [name], [description] and
    [parent]: every other field of the object is dropped. *)
Theorem processCommonResponse_extracts_fields :
  forall (resp : response) (d : list (str * json)) (isOk : bool) (info : json),
    ok resp = true ->
    json_body resp = Some (JDict d) ->
    dict_has d (lit "id") = true ->
    processCommonResponse resp = Val (isOk, info) ->
    isOk = true
    /\ exists fields : list (str * json),
        info = JDict fields
        /\ dict_get fields (lit "id") = dict_get d (lit "id")
        /\ dict_get fields (lit "slug") = dict_get d (lit "slug")
        /\ dict_get fields (lit "link") = dict_get d (lit "link")
        /\ (forall k : str, dict_has fields k = true -> In k extracted_keys).
Proof.
  intros resp d isOk info Hok Hj Hid H.
  destruct (processCommonResponse_with_id resp d isOk info Hok Hj Hid H)
    as (-> & fields & -> & (Hi & Hs & Hl) & _ & _ & _ & _ & Hkeys).
  split; [reflexivity|]. exists fields. repeat split; assumption.
Qed.

Lemma processCommonResponse_extracts_witness :
  exists fields : list (str * json),
    JDict [(lit "id", JInt 13224); (lit "slug", JStr (lit "gpu"));
           (lit "link", JStr (lit "https://www.crifan.org/tag/gpu/"));
           (lit "name", JStr (lit "GPU")); (lit "description", JStr (lit ""))]
    = JDict fields
    /\ dict_has fields (lit "count") = false.
Proof.
  destruct (processCommonResponse_extracts_fields
              resp_created_gpu _ true _ eq_refl eq_refl eq_refl eq_refl)
    as (_ & fields & E & _ & _ & _ & Hkeys).
  exists fields. split; [exact E|].
  destruct (dict_has fields (lit "count")) eqn:Hc; [|reflexivity].
  apply Hkeys in Hc. unfold extracted_keys in Hc. cbn [In] in Hc.
  repeat (destruct Hc as [Hc|Hc]; [discriminate Hc|]). destruct Hc.
Defined.

(** X3. In the payload built from a JSON object that has an id: [url] and
    [title] are there exactly when the object has a type that is
    ["attachment"] or ["post"], and are the [rendered] entries of its [guid]
    and [title]; [name] and [description] are there exactly when the object
    has a taxonomy, and are copied; [parent] is there exactly when that
    taxonomy is ["category"], and is copied. *)
Theorem processCommonResponse_conditional_fields :
  forall (resp : response) (d : list (str * json)) (isOk : bool) (info : json),
    ok resp = true ->
    json_body resp = Some (JDict d) ->
    dict_has d (lit "id") = true ->
    processCommonResponse resp = Val (isOk, info) ->
    exists fields : list (str * json),
      info = JDict fields
      /\ (dict_has fields (lit "url") = is_media d
          /\ dict_has fields (lit "title") = is_media d
          /\ dict_has fields (lit "name") = dict_has d (lit "taxonomy")
          /\ dict_has fields (lit "description") = dict_has d (lit "taxonomy")
          /\ dict_has fields (lit "parent") = is_category d)
      /\ (dict_has d (lit "taxonomy") = true ->
          dict_get fields (lit "name") = dict_get d (lit "name")
          /\ dict_get fields (lit "description")
             = dict_get d (lit "description"))
      /\ (is_category d = true ->
          dict_get fields (lit "parent") = dict_get d (lit "parent"))
      /\ (is_media d = true ->
          exists guid title url_ title_ : json,
            dict_get d (lit "guid") = Some guid
            /\ getitem guid (lit "rendered") = Val url_
            /\ dict_get fields (lit "url") = Some url_
            /\ dict_get d (lit "title") = Some title
            /\ getitem title (lit "rendered") = Val title_
            /\ dict_get fields (lit "title") = Some title_).
Proof.
  intros resp d isOk info Hok Hj Hid H.
  destruct (processCommonResponse_with_id resp d isOk info Hok Hj Hid H)
    as (_ & fields & -> & _ & Hhas & Htax & Hcat & Hmedia & _).
  exists fields. split; [reflexivity|]. split; [exact Hhas|].
  split; [exact Htax|]. split; [exact Hcat|exact Hmedia].
Qed.

Lemma processCommonResponse_conditional_witness :
  exists fields : list (str * json),
    JDict [(lit "id", JInt 13224); (lit "slug", JStr (lit "gpu"));
           (lit "link", JStr (lit "https://www.crifan.org/tag/gpu/"));
           (lit "name", JStr (lit "GPU")); (lit "description", JStr (lit ""))]
    = JDict fields
    /\ dict_has fields (lit "parent") = false.
Proof.
  destruct (processCommonResponse_conditional_fields
              resp_created_gpu _ true _ eq_refl eq_refl eq_refl eq_refl)
    as (fields & E & (_ & _ & _ & _ & Hp) & _).
  exists fields. split; [exact E | exact Hp].
Defined.

(** X4. A JSON object that has an id but lacks one of the keys read next is
    not turned into a failed result: [processCommonResponse] raises the
    [KeyError] of the first missing key, [slug], then [link], then, for an
    object with a taxonomy, [name]. *)
Theorem processCommonResponse_missing_key_raises :
  forall (resp : response) (d : list (str * json)),
    ok resp = true ->
    json_body resp = Some (JDict d) ->
    dict_has d (lit "id") = true ->
    (dict_get d (lit "slug") = None ->
     processCommonResponse resp = Exc (KeyError (lit "slug")))
    /\ (dict_has d (lit "slug") = true ->
        dict_get d (lit "link") = None ->
        processCommonResponse resp = Exc (KeyError (lit "link")))
    /\ (dict_has d (lit "slug") = true ->
        dict_has d (lit "link") = true ->
        dict_has d (lit "type") = false ->
        dict_has d (lit "taxonomy") = true ->
        dict_get d (lit "name") = None ->
        processCommonResponse resp = Exc (KeyError (lit "name"))).
Proof.
  intros resp d Hok Hj Hid.
  unfold processCommonResponse, resp_json. rewrite Hok, Hj. cbn [rbind].
  rewrite Hid. unfold dict_has in *. cbn [getitem].
  destruct (dict_get d (lit "id")) as [vi|]; [|discriminate].
  cbn [rbind]. repeat split.
  - intros ->. reflexivity.
  - intros Hs ->. destruct (dict_get d (lit "slug")); [|discriminate].
    reflexivity.
  - intros Hs Hl Hty Htax ->.
    destruct (dict_get d (lit "slug")); [|discriminate].
    destruct (dict_get d (lit "link")); [|discriminate].
    destruct (dict_get d (lit "type")); [discriminate|].
    destruct (dict_get d (lit "taxonomy")); [|discriminate].
    reflexivity.
Qed.

Lemma processCommonResponse_missing_key_witness :
  processCommonResponse
    {| ok := true; status_code := 200; text := [];
       json_body := Some (JDict [(lit "id", JInt 7);
                                 (lit "name", JStr (lit "GPU"))]) |}
  = Exc (KeyError (lit "slug")).
Proof.
  exact (proj1 (processCommonResponse_missing_key_raises
                  {| ok := true; status_code := 200; text := [];
                     json_body := Some (JDict [(lit "id", JInt 7);
                                               (lit "name", JStr (lit "GPU"))]) |}
                  _ eq_refl eq_refl eq_refl) eq_refl).
Defined.

(** ** [validateToken] *)

Lemma code_not_extracted (fields : list (str * json)) :
  (forall k : str, dict_has fields k = true -> In k extracted_keys) ->
  dict_get fields (lit "code") = None.
Proof.
  intros Hkeys. destruct (dict_get fields (lit "code")) eqn:E; [|reflexivity].
  assert (Hc : dict_has fields (lit "code") = true)
    by (unfold dict_has; now rewrite E).
  apply Hkeys in Hc. unfold extracted_keys in Hc. cbn [In] in Hc.
  repeat (destruct Hc as [Hc|Hc]; [discriminate Hc|]). destruct Hc.
Qed.

Section ValidateTokenProofs.
Variable self : crifanWordpress.

Lemma validateToken_run (r : response) (rest : list response)
      (s0 : list request) :
  validateToken self {| script := r :: rest; sent := s0 |}
  = ('(isTokenOk, respInfo) <- lift (processCommonResponse r) ;;
     if isTokenOk then
       respCode <- lift (getitem respInfo (lit "code")) ;;
       if json_eq_str respCode JWT_TOKEN_VALID_CODE
       then ret (true, respInfo)
       else ret (false, respInfo)
     else ret (isTokenOk, respInfo))
      {| script := rest; sent := s0 ++ [validateToken_request self] |}.
Proof. reflexivity. Qed.

Lemma validateToken_with_id (r : response) (rest : list response)
      (s0 : list request) (d : list (str * json)) (isOk : bool) (info : json) :
  ok r = true ->
  json_body r = Some (JDict d) ->
  dict_has d (lit "id") = true ->
  processCommonResponse r = Val (isOk, info) ->
  validateToken self {| script := r :: rest; sent := s0 |}
  = (Raise (KeyError (lit "code")),
     {| script := rest; sent := s0 ++ [validateToken_request self] |}).
Proof.
  intros Hok Hj Hid P. rewrite validateToken_run. unfold bind. rewrite P.
  destruct (processCommonResponse_with_id r d isOk info Hok Hj Hid P)
    as (-> & fields & -> & _ & _ & _ & _ & _ & Hkeys).
  cbn [lift getitem]. now rewrite (code_not_extracted fields Hkeys).
Qed.
End ValidateTokenProofs.

(** X5. [validateToken] answers [True] only when the server answered with
    success and a JSON object without id whose [code] is
    ["jwt_auth_valid_token"]; the object is returned with it, and one request
    went out, a POST to the validation URL. *)
Theorem validateToken_true_only_valid_code :
  forall (self : crifanWordpress) (w w' : world) (info : json),
    validateToken self w = (Ret (true, info), w') ->
    exists (r : response) (rest : list response)
           (d : list (str * json)) (c : json),
      script w = r :: rest
      /\ ok r = true
      /\ json_body r = Some (JDict d)
      /\ dict_has d (lit "id") = false
      /\ info = JDict d
      /\ dict_get d (lit "code") = Some c
      /\ json_eq_str c JWT_TOKEN_VALID_CODE = true
      /\ w' = {| script := rest;
                 sent := sent w ++ [validateToken_request self] |}.
Proof.
  intros self [scr s0] w' info H.
  destruct scr as [|r rest]; [discriminate H|].
  rewrite validateToken_run in H. unfold bind in H.
  destruct (processCommonResponse r) as [[isOk respInfo]|e] eqn:P;
    cbn [lift] in H; [|discriminate H].
  destruct isOk; [|discriminate H].
  destruct (getitem respInfo (lit "code")) as [c|e] eqn:G;
    cbn [lift] in H; [|discriminate H].
  destruct (json_eq_str c JWT_TOKEN_VALID_CODE) eqn:J; [|discriminate H].
  injection H as <- <-.
  destruct (ok r) eqn:Hok;
    [|rewrite (processCommonResponse_not_ok r Hok) in P; discriminate P].
  destruct (json_body r) as [j|] eqn:Hj;
    [|unfold processCommonResponse, resp_json in P;
      rewrite Hok, Hj in P; discriminate P].
  destruct j as [ | | | | |l|d];
    try (unfold processCommonResponse, resp_json in P;
         rewrite Hok, Hj in P; discriminate P).
  - unfold processCommonResponse, resp_json in P. rewrite Hok, Hj in P.
    injection P as <-. discriminate G.
  - destruct (dict_has d (lit "id")) eqn:Hid.
    + destruct (processCommonResponse_with_id r d true respInfo Hok Hj Hid P)
        as (_ & fields & -> & _ & _ & _ & _ & _ & Hkeys).
      cbn [getitem] in G. rewrite (code_not_extracted fields Hkeys) in G.
      discriminate G.
    + rewrite (processCommonResponse_without_id r d Hok Hj Hid) in P.
      injection P as <-. cbn [getitem] in G.
      destruct (dict_get d (lit "code")) as [c'|] eqn:Hc; [|discriminate G].
      injection G as ->.
      exists r, rest, d, c. repeat split; auto.
Qed.

Lemma validateToken_true_witness :
  exists (r : response) (rest : list response),
    [{| ok := true; status_code := 200; text := [];
        json_body := Some (JDict [(lit "code", JStr JWT_TOKEN_VALID_CODE);
                                  (lit "data", JDict [(lit "status", JInt 200)])])
     |}] = r :: rest
    /\ ok r = true.
Proof.
  destruct (validateToken_true_only_valid_code crifan_org
              {| script :=
                   [{| ok := true; status_code := 200; text := [];
                       json_body :=
                         Some (JDict [(lit "code", JStr JWT_TOKEN_VALID_CODE);
                                      (lit "data",
                                       JDict [(lit "status", JInt 200)])]) |}];
                 sent := [] |} _ _ eq_refl)
    as (r & rest & d & c & Hs & Hok & _).
  exists r, rest. split; [exact Hs | exact Hok].
Defined.

(** X6. What [validateToken] returns after its one request: on a transport
    failure, [False] with the dict of [errCode] and [errMsg]; on a
    successful answer that is a JSON object without id and with a [code],
    the object, with [True] when the code is ["jwt_auth_valid_token"] and
    [False] when it is any other value. *)
Theorem validateToken_outcomes :
  forall (self : crifanWordpress) (r : response) (rest : list response)
         (s0 : list request),
    (ok r = false ->
     validateToken self {| script := r :: rest; sent := s0 |}
     = (Ret (false, JDict [(lit "errCode", JInt (status_code r));
                           (lit "errMsg", JStr (text r))]),
        {| script := rest; sent := s0 ++ [validateToken_request self] |}))
    /\ (forall (d : list (str * json)) (c : json),
           ok r = true ->
           json_body r = Some (JDict d) ->
           dict_has d (lit "id") = false ->
           dict_get d (lit "code") = Some c ->
           validateToken self {| script := r :: rest; sent := s0 |}
           = (Ret (json_eq_str c JWT_TOKEN_VALID_CODE, JDict d),
              {| script := rest;
                 sent := s0 ++ [validateToken_request self] |})).
Proof.
  intros self r rest s0. split.
  - intros Hok. rewrite validateToken_run. unfold bind.
    now rewrite (processCommonResponse_not_ok r Hok).
  - intros d c Hok Hj Hid Hc. rewrite validateToken_run. unfold bind.
    rewrite (processCommonResponse_without_id r d Hok Hj Hid).
    cbn [lift getitem]. rewrite Hc. cbn [lift].
    destruct (json_eq_str c JWT_TOKEN_VALID_CODE); reflexivity.
Qed.

Lemma validateToken_outcomes_witness :
  validateToken crifan_org {| script := [resp_403]; sent := [] |}
  = (Ret (false, JDict [(lit "errCode", JInt 403);
                        (lit "errMsg", JStr (lit "Expired token"))]),
     {| script := []; sent := [validateToken_request crifan_org] |}).
Proof.
  exact (proj1 (validateToken_outcomes crifan_org resp_403 [] []) eq_refl).
Defined.

(** X7. [validateToken] raises, after its one request, when the successful
    answer is a JSON array ([TypeError]), a JSON object without id and
    without [code] ([KeyError]), or a JSON object with an id, whose payload
    never holds a [code], whatever the object holds ([KeyError]). *)
Theorem validateToken_raises :
  forall (self : crifanWordpress) (r : response) (rest : list response)
         (s0 : list request),
    ok r = true ->
    (forall l : list json,
        json_body r = Some (JList l) ->
        validateToken self {| script := r :: rest; sent := s0 |}
        = (Raise TypeError,
           {| script := rest; sent := s0 ++ [validateToken_request self] |}))
    /\ (forall d : list (str * json),
           json_body r = Some (JDict d) ->
           dict_has d (lit "id") = false ->
           dict_get d (lit "code") = None ->
           validateToken self {| script := r :: rest; sent := s0 |}
           = (Raise (KeyError (lit "code")),
              {| script := rest;
                 sent := s0 ++ [validateToken_request self] |}))
    /\ (forall (d : list (str * json)) (isOk : bool) (info : json),
           json_body r = Some (JDict d) ->
           dict_has d (lit "id") = true ->
           processCommonResponse r = Val (isOk, info) ->
           validateToken self {| script := r :: rest; sent := s0 |}
           = (Raise (KeyError (lit "code")),
              {| script := rest;
                 sent := s0 ++ [validateToken_request self] |})).
Proof.
  intros self r rest s0 Hok. split; [|split].
  - intros l Hj. rewrite validateToken_run. unfold bind.
    unfold processCommonResponse, resp_json. now rewrite Hok, Hj.
  - intros d Hj Hid Hc. rewrite validateToken_run. unfold bind.
    rewrite (processCommonResponse_without_id r d Hok Hj Hid).
    cbn [lift getitem]. now rewrite Hc.
  - intros d isOk info Hj Hid P.
    now apply validateToken_with_id with (d := d) (isOk := isOk) (info := info).
Qed.

Lemma validateToken_raises_witness :
  validateToken crifan_org
    {| script :=
         [{| ok := true; status_code := 200; text := [];
             json_body :=
               Some (JDict [(lit "id", JInt 1); (lit "slug", JStr (lit "x"));
                            (lit "link", JStr (lit "y"));
                            (lit "code", JStr JWT_TOKEN_VALID_CODE)]) |}];
       sent := [] |}
  = (Raise (KeyError (lit "code")),
     {| script := []; sent := [validateToken_request crifan_org] |}).
Proof.
  exact (proj2 (proj2 (validateToken_raises crifan_org
                         {| ok := true; status_code := 200; text := [];
                            json_body :=
                              Some (JDict [(lit "id", JInt 1);
                                           (lit "slug", JStr (lit "x"));
                                           (lit "link", JStr (lit "y"));
                                           (lit "code",
                                            JStr JWT_TOKEN_VALID_CODE)]) |}
                         [] [] eq_refl))
           _ true _ eq_refl eq_refl eq_refl).
Defined.

(** ** The requests for a taxonomy *)

(** X8. The body of the request of [createTaxonomy] is a dict that always
    holds the name, holds [slug] and [description] exactly when they are
    given and not empty, holds [parent] exactly when the taxonomy is
    ["category"] and the parent is given and not zero, and holds nothing
    else: a tag is never sent with a parent. *)
Theorem createTaxonomy_request_payload :
  forall (self : crifanWordpress) (name taxonomy : str)
         (parent slug description : json),
    meth (createTaxonomy_request self name taxonomy parent slug description)
    = POST
    /\ exists d : list (str * json),
        payload (createTaxonomy_request self name taxonomy
                   parent slug description) = Some (JDict d)
        /\ dict_get d (lit "name") = Some (JStr name)
        /\ dict_get d (lit "slug")
           = (if truthy slug then Some slug else None)
        /\ dict_get d (lit "description")
           = (if truthy description then Some description else None)
        /\ dict_get d (lit "parent")
           = (if str_eqb taxonomy (lit "category") && truthy parent
              then Some parent else None)
        /\ (forall k : str, dict_has d k = true -> In k taxonomy_keys).
Proof.
  intros self name taxonomy parent slug description.
  split; [reflexivity|].
  unfold createTaxonomy_request. cbn [payload].
  destruct (truthy slug), (truthy description), (truthy parent),
    (str_eqb taxonomy (lit "category"));
    (eexists; split; [reflexivity|];
     do 4 (split; [reflexivity|]);
     intros k Hk; apply (dict_has_keys _ k) in Hk;
     unfold taxonomy_keys; cbn in Hk |- *; tauto).
Qed.

(** X9. For a client built by [__init__], the requests of [createTaxonomy]
    and of [getTaxonomySinglePage] go to the same URL for the same known
    taxonomy, the host followed by the path of the categories or of the
    tags; the two URLs differ, and neither is empty. *)
Theorem known_taxonomy_urls :
  forall (host jwtToken name : str) (parent slug description : json)
         (curPage : Z) (perPage : option Z),
    let self := init host jwtToken in
    let categories := host ++ lit "/wp-json/wp/v2/categories" in
    let tags := host ++ lit "/wp-json/wp/v2/tags" in
    url (createTaxonomy_request self name (lit "category")
           parent slug description) = categories
    /\ url (getTaxonomySinglePage_request self name (lit "category")
              curPage perPage) = categories
    /\ url (createTaxonomy_request self name (lit "post_tag")
              parent slug description) = tags
    /\ url (getTaxonomySinglePage_request self name (lit "post_tag")
              curPage perPage) = tags
    /\ categories <> tags
    /\ categories <> lit ""
    /\ tags <> lit "".
Proof.
  intros host jwtToken name parent slug description curPage perPage
         self categories tags.
  repeat split; try reflexivity.
  - intros H. apply app_inv_head in H. discriminate H.
  - intros H. apply app_eq_nil in H. destruct H as [_ H]. discriminate H.
  - intros H. apply app_eq_nil in H. destruct H as [_ H]. discriminate H.
Qed.

(** ** [findSameNameTaxonomy], beyond lists of records *)

Lemma name_is_lower (U : pyunicode) (name : str) (t : json) :
  name_is name t = true -> lower_name_is U name t = true.
Proof.
  unfold name_is, lower_name_is.
  destruct (getitem t (lit "name")) as [v|e]; [|discriminate].
  destruct v as [ | | | |s| | ]; try discriminate.
  cbn [json_eq_str]. intros H. apply str_eqb_eq in H. subst s.
  apply str_eqb_refl.
Qed.

Lemma name_is_truthy (name : str) (t : json) :
  name_is name t = true -> truthy t = true.
Proof.
  unfold name_is. destruct (getitem t (lit "name")) as [v|e] eqn:E;
    [|discriminate].
  intros _. now apply getitem_truthy in E.
Qed.

Section FindSameNameMore.
Variable U : pyunicode.
Variable name : str.

Lemma findSameName_loop_stops (pre : list json) (e : json)
      (post : list json) (acc : json) :
  forallb is_taxonomy pre = true ->
  forallb (fun c => negb (name_is name c)) pre = true ->
  name_is name e = true ->
  exists acc' : json,
    findSameName_loop U name (str_lower U name) (pre ++ e :: post) acc
    = Val (e, acc').
Proof.
  revert acc; induction pre as [|x pre IH]; intros acc Hall Hnone He.
  - cbn [app findSameName_loop]. unfold name_is in He.
    destruct (getitem e (lit "name")) as [v|]; [|discriminate].
    destruct v as [ | | | |s| | ]; try discriminate.
    cbn [rbind py_lower]. rewrite He. eexists; reflexivity.
  - cbn [forallb] in Hall, Hnone.
    apply andb_true_iff in Hall. destruct Hall as [Hx Hall].
    apply andb_true_iff in Hnone. destruct Hnone as [Hnx Hnone].
    cbn [app findSameName_loop]. unfold name_is in Hnx.
    destruct x as [ | | | | | |d]; try discriminate Hx.
    cbn [is_taxonomy] in Hx. cbn [getitem] in Hnx |- *.
    destruct (dict_get d (lit "name")) as [v|]; [|discriminate Hx].
    destruct v as [ | | | |s| | ]; try discriminate Hx.
    cbn [rbind py_lower]. apply negb_true_iff in Hnx. rewrite Hnx.
    destruct (str_eqb (str_lower U s) (str_lower U name)); now apply IH.
Qed.

Lemma findSameName_loop_malformed (pre : list json) (bad : json)
      (post : list json) (acc : json) :
  forallb is_taxonomy pre = true ->
  forallb (fun c => negb (name_is name c)) pre = true ->
  is_taxonomy bad = false ->
  findSameName_loop U name (str_lower U name) (pre ++ bad :: post) acc
  = Exc (candidate_error bad).
Proof.
  revert acc; induction pre as [|x pre IH]; intros acc Hall Hnone Hbad.
  - cbn [app findSameName_loop]. unfold candidate_error.
    destruct (getitem bad (lit "name")) as [v|e] eqn:E; [|reflexivity].
    cbn [rbind].
    destruct bad as [ | | | | | |d]; try discriminate E.
    cbn [is_taxonomy getitem] in Hbad, E.
    destruct (dict_get d (lit "name")) as [v'|]; [|discriminate E].
    injection E as ->.
    destruct v as [ | | | |s| | ]; try reflexivity. discriminate Hbad.
  - cbn [forallb] in Hall, Hnone.
    apply andb_true_iff in Hall. destruct Hall as [Hx Hall].
    apply andb_true_iff in Hnone. destruct Hnone as [Hnx Hnone].
    cbn [app findSameName_loop]. unfold name_is in Hnx.
    destruct x as [ | | | | | |d]; try discriminate Hx.
    cbn [is_taxonomy] in Hx. cbn [getitem] in Hnx |- *.
    destruct (dict_get d (lit "name")) as [v|]; [|discriminate Hx].
    destruct v as [ | | | |s| | ]; try discriminate Hx.
    cbn [rbind py_lower]. apply negb_true_iff in Hnx. rewrite Hnx.
    destruct (str_eqb (str_lower U s) (str_lower U name)); now apply IH.
Qed.
End FindSameNameMore.

(** X10. On a list of taxonomy records, what [findSameNameTaxonomy] returns
    is either [None], and then no record of the list has the name up to
    case, or a record of the list whose lower-cased name is the lower-cased
    target. *)
Theorem findSameNameTaxonomy_sound :
  forall (U : pyunicode) (name : str) (candidates : list json) (t : json),
    forallb is_taxonomy candidates = true ->
    findSameNameTaxonomy U name (JList candidates) = Val t ->
    (t = JNull
     /\ forall c : json, In c candidates -> lower_name_is U name c = false)
    \/ (In t candidates /\ lower_name_is U name t = true).
Proof.
  intros U name candidates t Hall H.
  rewrite (findSameNameTaxonomy_refines U name candidates Hall) in H.
  injection H as <-. unfold findMatch_spec.
  destruct (find (name_is name) candidates) as [e|] eqn:He.
  - right. apply find_some in He. destruct He as [Hin He].
    split; [exact Hin | now apply name_is_lower].
  - destruct (find (lower_name_is U name) (rev candidates)) as [l|] eqn:Hl.
    + right. apply find_some in Hl. destruct Hl as [Hin Hl].
      split; [now apply in_rev in Hin | exact Hl].
    + left. split; [reflexivity|]. intros c Hc.
      apply (find_none _ _ Hl). now apply in_rev in Hc.
Qed.

Lemma findSameNameTaxonomy_sound_witness :
  (named "Mac" = JNull
   /\ forall c : json,
       In c [named "Cocoa"; named "Mac"] ->
       lower_name_is ascii_db (lit "mac") c = false)
  \/ (In (named "Mac") [named "Cocoa"; named "Mac"]
      /\ lower_name_is ascii_db (lit "mac") (named "Mac") = true).
Proof.
  exact (findSameNameTaxonomy_sound ascii_db (lit "mac")
           [named "Cocoa"; named "Mac"] (named "Mac") eq_refl eq_refl).
Defined.

(** X11. The scan of [findSameNameTaxonomy] stops at the first record with
    exactly the name: when the records before it are taxonomy records with
    other names, it is returned whatever follows it in the list, be it
    values that are no records at all. *)
Theorem findSameNameTaxonomy_stops_at_exact :
  forall (U : pyunicode) (name : str) (pre : list json) (e : json)
         (post : list json),
    forallb is_taxonomy pre = true ->
    forallb (fun c => negb (name_is name c)) pre = true ->
    name_is name e = true ->
    findSameNameTaxonomy U name (JList (pre ++ e :: post)) = Val e.
Proof.
  intros U name pre e post Hall Hnone He.
  unfold findSameNameTaxonomy. cbn [py_iter rbind].
  destruct (findSameName_loop_stops U name pre e post JNull Hall Hnone He)
    as [acc' ->].
  cbn [rbind]. now rewrite (name_is_truthy name e He).
Qed.

Lemma findSameNameTaxonomy_stops_witness :
  findSameNameTaxonomy ascii_db (lit "Mac")
    (JList [named "mac"; named "Mac"; JNull; JInt 3])
  = Val (named "Mac").
Proof.
  exact (findSameNameTaxonomy_stops_at_exact ascii_db (lit "Mac")
           [named "mac"] (named "Mac") [JNull; JInt 3]
           eq_refl eq_refl eq_refl).
Defined.

(** X12. A candidate that is no taxonomy record, met before any record with
    exactly the name, ends [findSameNameTaxonomy] with an exception, whatever
    was matched before it and whatever follows: [TypeError] when it is no
    dict, [KeyError] when it has no name, [AttributeError] when its name is
    no string. *)
Theorem findSameNameTaxonomy_malformed_candidate :
  forall (U : pyunicode) (name : str) (pre : list json) (bad : json)
         (post : list json),
    forallb is_taxonomy pre = true ->
    forallb (fun c => negb (name_is name c)) pre = true ->
    is_taxonomy bad = false ->
    findSameNameTaxonomy U name (JList (pre ++ bad :: post))
    = Exc (candidate_error bad)
    /\ (candidate_error bad = TypeError
        \/ candidate_error bad = KeyError (lit "name")
        \/ candidate_error bad = AttributeError).
Proof.
  intros U name pre bad post Hall Hnone Hbad. split.
  - unfold findSameNameTaxonomy. cbn [py_iter rbind].
    now rewrite (findSameName_loop_malformed U name pre bad post JNull
                   Hall Hnone Hbad).
  - unfold candidate_error.
    destruct bad as [ | | | | | |d]; cbn [getitem]; auto.
    destruct (dict_get d (lit "name")); auto.
Qed.

Lemma findSameNameTaxonomy_malformed_witness :
  findSameNameTaxonomy ascii_db (lit "Mac")
    (JList [named "mac"; JDict [(lit "id", JInt 5)]; named "Mac"])
  = Exc (KeyError (lit "name")).
Proof.
  exact (proj1 (findSameNameTaxonomy_malformed_candidate ascii_db (lit "Mac")
                  [named "mac"] (JDict [(lit "id", JInt 5)]) [named "Mac"]
                  eq_refl eq_refl eq_refl)).
Defined.

(** ** [getAllTaxonomy] and [searchTaxonomy], whatever the server answers *)

Section PagingProofs.
Variable self : crifanWordpress.
Variables name taxonomy : str.

#[local] Arguments restPages : simpl never.

Lemma page_requests_zero (p : nat) :
  page_requests self name taxonomy p 0 = [].
Proof. reflexivity. Qed.

Lemma page_requests_one (p : nat) :
  page_requests self name taxonomy p 1
  = [getTaxonomySinglePage_request self name taxonomy (Z.of_nat p)
       (Some SearchTagPerPage)].
Proof. reflexivity. Qed.

Lemma page_requests_step (s0 : list request) (p n : nat) :
  (s0 ++ [getTaxonomySinglePage_request self name taxonomy (Z.of_nat p)
            (Some SearchTagPerPage)])
  ++ page_requests self name taxonomy (S p) n
  = s0 ++ page_requests self name taxonomy p (S n).
Proof.
  rewrite page_requests_cons. now rewrite <- app_assoc.
Qed.

Lemma restPages_discipline (fuel : nat) :
  forall (isOk isFull : bool) (p : nat) (acc : list json)
         (w w' : world) (o : outcome (list json)),
    List.length (script w) < fuel ->
    restPages self fuel name taxonomy SearchTagPerPage isOk isFull
              (Z.of_nat p) acc w = (o, w') ->
    exists n : nat,
      sent w' = sent w ++ page_requests self name taxonomy p n
      /\ script w' = skipn n (script w).
Proof.
  induction fuel as [|fuel IH]; intros isOk isFull p acc w w' o Hfuel H;
    [inversion Hfuel|].
  destruct (isOk && isFull) eqn:E.
  - apply andb_true_iff in E. destruct E as [-> ->].
    rewrite restPages_step in H. destruct w as [[|r rest] s0].
    + unfold bind at 1 in H. rewrite getTaxonomySinglePage_blocked in H.
      injection H as <- <-. exists 1. split; reflexivity.
    + unfold bind at 1 in H. rewrite getTaxonomySinglePage_run in H.
      cbn [script List.length] in Hfuel.
      assert (Hone : exists n : nat,
                 s0 ++ [getTaxonomySinglePage_request self name taxonomy
                          (Z.of_nat p) (Some SearchTagPerPage)]
                 = s0 ++ page_requests self name taxonomy p n
                 /\ rest = skipn n (r :: rest))
        by (exists 1; split; reflexivity).
      destruct (processCommonResponse r) as [[isOk' items]|e];
        cbn [lift] in H; [|injection H as <- <-; exact Hone].
      replace (Z.of_nat p + 1)%Z with (Z.of_nat (S p)) in H by lia.
      assert (Hrec : forall (full : bool) (acc' : list json),
                 restPages self fuel name taxonomy SearchTagPerPage isOk' full
                           (Z.of_nat (S p)) acc'
                           {| script := rest;
                              sent := s0 ++ [getTaxonomySinglePage_request
                                               self name taxonomy (Z.of_nat p)
                                               (Some SearchTagPerPage)] |}
                 = (o, w') ->
                 exists n : nat,
                   sent w' = s0 ++ page_requests self name taxonomy p n
                   /\ script w' = skipn n (r :: rest)).
      { intros full acc' Hrun.
        apply IH in Hrun; [|cbn [script]; lia].
        destruct Hrun as (n & Hs & Hscr).
        exists (S n). cbn [sent script] in Hs, Hscr.
        rewrite Hs, page_requests_step. split; [reflexivity | exact Hscr]. }
      destruct isOk'.
      * unfold bind, lift, ret in H.
        destruct (py_len items) as [len|e];
          [|injection H as <- <-; exact Hone].
        destruct (list_extend acc items) as [acc'|e];
          [|injection H as <- <-; exact Hone].
        now apply Hrec in H.
      * unfold bind, ret in H. now apply Hrec in H.
  - rewrite restPages_done in H by exact E. injection H as <- <-.
    exists 0. rewrite page_requests_zero, app_nil_r. split; reflexivity.
Qed.

Lemma getAllTaxonomy_discipline (w w' : world) (o : outcome (bool * json)) :
  getAllTaxonomy self name taxonomy w = (o, w') ->
  exists n : nat,
    1 <= n
    /\ sent w' = sent w ++ page_requests self name taxonomy 1 n
    /\ script w' = skipn n (script w).
Proof.
  intros H. unfold getAllTaxonomy in H. destruct w as [[|r rest] s0].
  - unfold bind at 1 in H. rewrite getTaxonomySinglePage_blocked in H.
    injection H as <- <-. exists 1. repeat split. lia.
  - unfold bind at 1 in H. rewrite getTaxonomySinglePage_run in H.
    assert (Hone : exists n : nat,
               1 <= n
               /\ s0 ++ [getTaxonomySinglePage_request self name taxonomy 1
                           (Some SearchTagPerPage)]
                  = s0 ++ page_requests self name taxonomy 1 n
               /\ rest = skipn n (r :: rest))
      by (exists 1; repeat split; lia).
    destruct (processCommonResponse r) as [[isOk items]|e];
      cbn [lift] in H; [|injection H as <- <-; exact Hone].
    destruct isOk; [|injection H as <- <-; exact Hone].
    unfold bind at 1 in H. unfold lift at 1 in H.
    destruct (py_len items) as [len|e]; [|injection H as <- <-; exact Hone].
    destruct (SearchTagPerPage <=? Z.of_nat len)%Z.
    + unfold bind at 1 in H. unfold bind at 1 in H. unfold pending in H.
      cbn [script sent] in H. unfold bind at 1 in H.
      change (1 + 1)%Z with (Z.of_nat 2) in H.
      destruct (restPages self (S (List.length rest)) name taxonomy
                          SearchTagPerPage true true (Z.of_nat 2) []
                          {| script := rest;
                             sent := s0 ++ [getTaxonomySinglePage_request
                                              self name taxonomy 1
                                              (Some SearchTagPerPage)] |})
        as [o1 w1] eqn:Hloop.
      apply restPages_discipline in Hloop; [|cbn [script]; lia].
      destruct Hloop as (n & Hs & Hscr). cbn [sent script] in Hs, Hscr.
      assert (Hall : exists m : nat,
                 1 <= m
                 /\ sent w1 = s0 ++ page_requests self name taxonomy 1 m
                 /\ script w1 = skipn m (r :: rest)).
      { exists (S n). split; [lia|]. split; [|exact Hscr].
        rewrite Hs. apply (page_requests_step s0 1 n). }
      destruct o1 as [items'| |];
        [|injection H as <- <-; exact Hall|injection H as <- <-; exact Hall].
      unfold lift, ret in H.
      destruct (obj_extend items items'); injection H as <- <-; exact Hall.
    + unfold bind, ret in H. injection H as <- <-. exact Hone.
Qed.

(** The pages of a fetch that succeeds throughout. *)
Lemma getAllTaxonomy_ok_pages (rs : list response) (pss : list (list json))
      (r_last : response) (p_last : list json) (rest : list response)
      (s0 : list request) :
  Forall2 ok_page rs pss ->
  Forall full_page pss ->
  ok_page r_last p_last ->
  ~ full_page p_last ->
  getAllTaxonomy self name taxonomy
    {| script := rs ++ r_last :: rest; sent := s0 |}
  = (Ret (true, JList (List.concat pss ++ p_last)),
     {| script := rest;
        sent := s0 ++ page_requests self name taxonomy 1
                       (S (List.length rs)) |}).
Proof.
  intros Hrs Hpss Hlast Hshort.
  destruct Hrs as [|r1 ps1 rs pss Hr1 Hrs].
  - now apply getAllTaxonomy_one_page.
  - inversion Hpss as [|? ? Hps1 Hpss']; subst.
    cbn [app List.concat List.length]. rewrite <- app_assoc.
    apply getAllTaxonomy_more_pages; try assumption.
    now apply closing_short.
Qed.
End PagingProofs.

(** X13. When the request for the first page fails, [getAllTaxonomy]
    returns [False] with the dict of [errCode] and [errMsg] after that one
    request, and [searchTaxonomy] returns [False] with [None]: the error
    detail does not pass [searchTaxonomy]. *)
Theorem search_first_page_failure :
  forall (U : pyunicode) (self : crifanWordpress) (name taxonomy : str)
         (r1 : response) (rest : list response) (s0 : list request),
    ok r1 = false ->
    getAllTaxonomy self name taxonomy {| script := r1 :: rest; sent := s0 |}
    = (Ret (false, JDict [(lit "errCode", JInt (status_code r1));
                          (lit "errMsg", JStr (text r1))]),
       {| script := rest;
          sent := s0 ++ page_requests self name taxonomy 1 1 |})
    /\ searchTaxonomy U self name taxonomy
         {| script := r1 :: rest; sent := s0 |}
       = (Ret (false, JNull),
          {| script := rest;
             sent := s0 ++ page_requests self name taxonomy 1 1 |}).
Proof.
  intros U self name taxonomy r1 rest s0 Hfail.
  pose proof (getAllTaxonomy_first_page_fails self name taxonomy r1 rest s0
                Hfail) as E.
  split; [exact E|]. unfold searchTaxonomy, bind. now rewrite E.
Qed.

Lemma search_first_page_failure_witness :
  searchTaxonomy ascii_db crifan_org (lit "Mac") (lit "category")
    {| script := [resp_403]; sent := [] |}
  = (Ret (false, JNull),
     {| script := [];
        sent := page_requests crifan_org (lit "Mac") (lit "category") 1 1 |}).
Proof.
  exact (proj2 (search_first_page_failure ascii_db crifan_org (lit "Mac")
                  (lit "category") resp_403 [] [] eq_refl)).
Defined.

(** X14. Whatever the server answers, be it failures, bodies that are no
    JSON or nothing at all, and however [getAllTaxonomy] ends, the requests
    it has sent are those for the pages 1, 2, ..., n, in this order, with
    n at least 1, and it has read the first n responses and no other: no
    page is skipped, none is asked for twice.  Each of them is a GET, and
    the query of the p-th is the name under [search], p under [page] and 100
    under [per_page]. *)
Theorem getAllTaxonomy_requests_consecutive_pages :
  forall (self : crifanWordpress) (name taxonomy : str)
         (w w' : world) (o : outcome (bool * json)),
    getAllTaxonomy self name taxonomy w = (o, w') ->
    exists (n : nat) (reqs : list request),
      1 <= n
      /\ sent w' = sent w ++ reqs
      /\ script w' = skipn n (script w)
      /\ reqs = page_requests self name taxonomy 1 n
      /\ map meth reqs = repeat GET n
      /\ map params reqs
         = map (fun p => [(lit "search", JStr name);
                          (lit "page", JInt (Z.of_nat p));
                          (lit "per_page", JInt 100)])
               (seq 1 n).
Proof.
  intros self name taxonomy w w' o H.
  destruct (getAllTaxonomy_discipline self name taxonomy w w' o H)
    as (n & Hn & Hs & Hscr).
  exists n, (page_requests self name taxonomy 1 n).
  destruct (page_requests_content self name taxonomy 1 n) as [Hm Hp].
  repeat split; assumption.
Qed.

Lemma getAllTaxonomy_requests_witness :
  exists (n : nat) (reqs : list request),
    1 <= n
    /\ page_requests crifan_org (lit "Mac") (lit "category") 1 2 = [] ++ reqs
    /\ [resp_403]
       = skipn n [page_of (repeat (named "Mac mini") 100); resp_200_html;
                  resp_403]
    /\ reqs = page_requests crifan_org (lit "Mac") (lit "category") 1 n
    /\ map meth reqs = repeat GET n
    /\ map params reqs
       = map (fun p => [(lit "search", JStr (lit "Mac"));
                        (lit "page", JInt (Z.of_nat p));
                        (lit "per_page", JInt 100)])
             (seq 1 n).
Proof.
  exact (getAllTaxonomy_requests_consecutive_pages
           crifan_org (lit "Mac") (lit "category")
           {| script := [page_of (repeat (named "Mac mini") 100);
                         resp_200_html; resp_403];
              sent := [] |}
           {| script := [resp_403];
              sent := page_requests crifan_org (lit "Mac") (lit "category")
                        1 2 |}
           (Raise JSONDecodeError)
           ltac:(vm_compute; reflexivity)).
Defined.

(** X15. When every page of the search succeeds and holds taxonomy records,
    [searchTaxonomy] returns [True] with the match chosen among the records
    of all the pages put end to end: the first record with exactly the name,
    on whatever page it is, else the last one with the name up to case,
    else [None]. *)
Theorem searchTaxonomy_matches_across_pages :
  forall (U : pyunicode) (self : crifanWordpress) (name taxonomy : str)
         (rs : list response) (pss : list (list json))
         (r_last : response) (p_last : list json)
         (rest : list response) (s0 : list request),
    Forall2 ok_page rs pss ->
    Forall full_page pss ->
    ok_page r_last p_last ->
    ~ full_page p_last ->
    forallb is_taxonomy (List.concat pss ++ p_last) = true ->
    searchTaxonomy U self name taxonomy
      {| script := rs ++ r_last :: rest; sent := s0 |}
    = (Ret (true, findMatch_spec U name (List.concat pss ++ p_last)),
       {| script := rest;
          sent := s0 ++ page_requests self name taxonomy 1
                         (S (List.length rs)) |}).
Proof.
  intros U self name taxonomy rs pss r_last p_last rest s0
         Hrs Hpss Hlast Hshort Hrec.
  unfold searchTaxonomy, bind.
  rewrite (getAllTaxonomy_ok_pages self name taxonomy rs pss r_last p_last
             rest s0 Hrs Hpss Hlast Hshort).
  now rewrite (findSameNameTaxonomy_refines U name _ Hrec).
Qed.

Lemma searchTaxonomy_matches_witness :
  searchTaxonomy ascii_db crifan_org (lit "Mac") (lit "category")
    {| script := [page_of (repeat (named "mac") 100); page_of [named "Mac"]];
       sent := [] |}
  = (Ret (true, named "Mac"),
     {| script := [];
        sent := page_requests crifan_org (lit "Mac") (lit "category") 1 2 |}).
Proof.
  refine (searchTaxonomy_matches_across_pages ascii_db crifan_org
            (lit "Mac") (lit "category")
            [page_of (repeat (named "mac") 100)] [repeat (named "mac") 100]
            (page_of [named "Mac"]) [named "Mac"] [] [] _ _ _ _ _).
  - repeat constructor.
  - repeat constructor. vm_compute. discriminate.
  - split; reflexivity.
  - vm_compute. intros H. now apply H.
  - vm_compute. reflexivity.
Defined.

(** ** [getTaxonomyIdList] and [createPost] *)

Section BatchProofs.
Variable U : pyunicode.
Variable self : crifanWordpress.

#[local] Arguments resolveName : simpl never.

Lemma resolveNames_all_fail (taxonomy : str) (nameList : list str) :
  forall (rs rest : list response) (s0 : list request),
    List.length rs = 2 * List.length nameList ->
    Forall (fun r => ok r = false) rs ->
    resolveNames U self taxonomy [] nameList
      {| script := rs ++ rest; sent := s0 |}
    = (Ret [],
       {| script := rest;
          sent := s0 ++ failed_requests self taxonomy nameList |}).
Proof.
  induction nameList as [|name names IH]; intros rs rest s0 Hlen Hfail.
  - destruct rs; [|discriminate Hlen].
    cbn. now rewrite app_nil_r.
  - destruct rs as [|r1 [|r2 rs]]; try (cbn in Hlen; lia).
    inversion Hfail as [|? ? H1 Hfail1]; subst.
    inversion Hfail1 as [|? ? H2 Hfail2]; subst.
    cbn [resolveNames app]. unfold bind.
    rewrite (resolveName_run U self taxonomy name _ _ None
               (name_run_both_fail U self taxonomy name r1 r2 (rs ++ rest) s0
                  H1 H2) []).
    cbn [ids_of app].
    rewrite IH; [|cbn in Hlen; lia|exact Hfail2].
    unfold failed_requests. cbn [flat_map]. unfold page_requests.
    cbn [seq map]. now rewrite <- !app_assoc.
Qed.

Lemma batch_run_nil (taxonomy : str) (w w' : world)
      (os : list (option json)) :
  batch_run U self taxonomy [] w os w' -> os = [] /\ w' = w.
Proof.
  intros H. inversion H. split; reflexivity.
Qed.

Lemma getTaxonomyIdList_guarded (taxonomy : str) (nameList : list str)
      (w w' : world) (os : list (option json)) :
  batch_run U self taxonomy nameList w os w' ->
  match nameList with
  | _ :: _ => getTaxonomyIdList U self nameList taxonomy
  | [] => ret []
  end w = (Ret (ids_of os), w').
Proof.
  intros Hrun. destruct nameList as [|name names].
  - apply batch_run_nil in Hrun. destruct Hrun as [-> ->]. reflexivity.
  - unfold getTaxonomyIdList.
    now rewrite (resolveNames_run U self taxonomy _ w w' os Hrun []).
Qed.
End BatchProofs.

(** X16. When every request fails, as with an expired token,
    [getTaxonomyIdList] raises nothing: for each name, in order, it sends
    the request for the first page of the search and then the creation
    request, two requests a name, and it returns the empty list. *)
Theorem getTaxonomyIdList_all_requests_fail :
  forall (U : pyunicode) (self : crifanWordpress) (taxonomy : str)
         (nameList : list str) (rs rest : list response) (s0 : list request),
    List.length rs = 2 * List.length nameList ->
    Forall (fun r => ok r = false) rs ->
    getTaxonomyIdList U self nameList taxonomy
      {| script := rs ++ rest; sent := s0 |}
    = (Ret [],
       {| script := rest;
          sent := s0 ++ failed_requests self taxonomy nameList |}).
Proof.
  intros U self taxonomy nameList rs rest s0 Hlen Hfail.
  unfold getTaxonomyIdList. now apply resolveNames_all_fail.
Qed.

Lemma getTaxonomyIdList_all_fail_witness :
  getTaxonomyIdList ascii_db crifan_org [lit "Mac"; lit "GPU"] (lit "post_tag")
    {| script := [resp_403; resp_403; resp_500; resp_403] ++ [resp_200_html];
       sent := [] |}
  = (Ret [],
     {| script := [resp_200_html];
        sent := [] ++ failed_requests crifan_org (lit "post_tag")
                        [lit "Mac"; lit "GPU"] |}).
Proof.
  apply (getTaxonomyIdList_all_requests_fail ascii_db crifan_org
           (lit "post_tag") [lit "Mac"; lit "GPU"]
           [resp_403; resp_403; resp_500; resp_403] [resp_200_html] []).
  - reflexivity.
  - repeat constructor.
Defined.

(** X17. [createPost] resolves the category names, then the tag names, and
    sends its own request last: when both resolutions return, that request is
    a POST to the posts URL whose body holds the title, the content, the
    date, the slug, the status and the format as given and, under
    [categories] and [tags], the ids of the names that were found or
    created, in order, the names left out by the resolution silently
    missing; the result is that of the response to this request. *)
Theorem createPost_after_resolution :
  forall (U : pyunicode) (self : crifanWordpress)
         (title content dateStr slug : str)
         (categoryNameList tagNameList : list str) (status postFormat : str)
         (w w1 : world) (r : response) (rest : list response)
         (s2 : list request) (cats tags : list (option json)),
    batch_run U self (lit "category") categoryNameList w cats w1 ->
    batch_run U self (lit "post_tag") tagNameList w1 tags
              {| script := r :: rest; sent := s2 |} ->
    exists req : request,
      createPost U self title content dateStr slug
                 categoryNameList tagNameList status postFormat w
      = lift (processCommonResponse r)
          {| script := rest; sent := s2 ++ [req] |}
      /\ meth req = POST
      /\ url req = apiPosts self
      /\ params req = []
      /\ payload req
         = Some (JDict [(lit "title", JStr title);
                        (lit "content", JStr content);
                        (lit "date", JStr dateStr);
                        (lit "slug", JStr slug);
                        (lit "status", JStr status);
                        (lit "format", JStr postFormat);
                        (lit "categories", JList (ids_of cats));
                        (lit "tags", JList (ids_of tags))]).
Proof.
  intros U self title content dateStr slug categoryNameList tagNameList
         status postFormat w w1 r rest s2 cats tags Hcats Htags.
  exists (createPost_request self title content dateStr slug
            (ids_of cats) (ids_of tags) status postFormat).
  split; [|repeat split].
  unfold createPost. unfold bind at 1.
  rewrite (getTaxonomyIdList_guarded U self (lit "category")
             categoryNameList w w1 cats Hcats).
  unfold bind at 1.
  rewrite (getTaxonomyIdList_guarded U self (lit "post_tag")
             tagNameList w1 _ tags Htags).
  reflexivity.
Qed.

Lemma createPost_after_resolution_witness :
  exists req : request,
    createPost ascii_db crifan_org (lit "title") (lit "<html/>")
               (lit "2020-08-17T10:16:34") (lit "a_slug")
               [lit "Mac"; lit "GPU"] [] (lit "draft") (lit "standard")
               {| script := [page_of [record_cocoa; record_mac];
                             resp_403; resp_403; resp_500];
                  sent := [] |}
    = lift (processCommonResponse resp_500)
        {| script := [];
           sent :=
             [getTaxonomySinglePage_request crifan_org (lit "Mac")
                (lit "category") 1 (Some SearchTagPerPage);
              getTaxonomySinglePage_request crifan_org (lit "GPU")
                (lit "category") 1 (Some SearchTagPerPage);
              createTaxonomy_request crifan_org (lit "GPU") (lit "category")
                JNull JNull JNull]
             ++ [req] |}
    /\ meth req = POST
    /\ url req = apiPosts crifan_org
    /\ params req = []
    /\ payload req
       = Some (JDict [(lit "title", JStr (lit "title"));
                      (lit "content", JStr (lit "<html/>"));
                      (lit "date", JStr (lit "2020-08-17T10:16:34"));
                      (lit "slug", JStr (lit "a_slug"));
                      (lit "status", JStr (lit "draft"));
                      (lit "format", JStr (lit "standard"));
                      (lit "categories", JList (ids_of [Some (JInt 1374); None]));
                      (lit "tags", JList (ids_of []))]).
Proof.
  eapply createPost_after_resolution.
  - eapply batch_cons.
    { eapply run_found; [vm_compute; reflexivity|].
      exists (JStr (lit "Mac")), (JStr (lit "mac")). repeat split. }
    eapply batch_cons.
    { eapply run_failed; [vm_compute; reflexivity | reflexivity
                          | vm_compute; reflexivity | reflexivity]. }
    apply batch_nil.
  - apply batch_nil.
Defined.

(** ** [generateSlug]: slugs of slugs, and lengths *)

Section SlugMoreProofs.
Variable U : pyunicode.

(** A pattern that takes a character of a class matches nowhere in a string
    that holds none. *)
Lemma match_here_none (icase : bool) (k : cset) (p : regex) :
  takes_class k p ->
  forall (bol : bool) (s : str),
    Forall (fun c => in_cset U icase k c = false) s ->
    match_here U icase p bol s = None.
Proof.
  unfold takes_class. intros Hp.
  induction Hp as [a p' [-> | ->] | a p' Hp IH]; intros bol s Hs.
  - cbn [match_here]. destruct Hs as [|c s' Hc Hs']; [reflexivity|].
    now rewrite Hc.
  - cbn [match_here]. destruct Hs as [|c s' Hc Hs']; [reflexivity|].
    now rewrite Hc.
  - destruct a as [k'|k'| |]; cbn [match_here].
    + destruct Hs as [|c s' Hc Hs']; [reflexivity|].
      destruct (in_cset U icase k' c); [|reflexivity].
      now rewrite (IH false s' Hs').
    + induction Hs as [|c s' Hc Hs' IHs]; [reflexivity|].
      destruct (in_cset U icase k' c); [|reflexivity].
      rewrite IHs. now rewrite (IH false s' Hs').
    + destruct bol; [now apply IH | reflexivity].
    + destruct (at_eol s); [now apply IH | reflexivity].
Qed.

Lemma sub_scan_no_match (icase : bool) (k : cset) (p : regex) (repl : str) :
  takes_class k p ->
  forall (s : str) (bol : bool),
    Forall (fun c => in_cset U icase k c = false) s ->
    sub_scan U icase p repl bol O s = s.
Proof.
  intros Hp s. induction s as [|c s' IH]; intros bol Hs.
  - cbn [sub_scan]. now rewrite (match_here_none icase k p Hp bol [] Hs).
  - cbn [sub_scan]. rewrite (match_here_none icase k p Hp bol _ Hs).
    f_equal. apply IH. now inversion Hs.
Qed.

Lemma notword_id (s : str) :
  Forall (fun c => re_word U c = true) s ->
  flat_map (fun c => if re_word U c then [c] else lit "_") s = s.
Proof.
  induction 1 as [|c s' Hc Hs IH]; cbn [flat_map]; [reflexivity|].
  rewrite Hc. cbn [app]. now rewrite IH.
Qed.

Lemma collapse_id (s : str) :
  no_double_underscore s ->
  collapse false s = s
  /\ (hd_error s <> Some 95%N -> collapse true s = s).
Proof.
  induction s as [|c s' IH]; intros Hs; [split; reflexivity|].
  assert (Hs' : no_double_underscore s')
    by (destruct s'; [exact I | apply Hs]).
  destruct (IH Hs') as [IH0 IH1].
  assert (Hnext : c = 95%N -> hd_error s' <> Some 95%N).
  { intros ->. destruct s' as [|b t]; [discriminate|].
    cbn. intros [= ->]. now apply (proj1 Hs). }
  split.
  - cbn [collapse]. destruct (N.eqb 95 c) eqn:E.
    + apply N.eqb_eq in E. f_equal. apply IH1. now apply Hnext.
    + now rewrite IH0.
  - intros Hc. cbn [collapse]. destruct (N.eqb 95 c) eqn:E.
    + apply N.eqb_eq in E. subst c. now contradiction Hc.
    + now rewrite IH0.
Qed.

(** A match takes at least [min_len] characters and no more than there
    are. *)
Lemma match_here_bounds (icase : bool) (p : regex) :
  forall (bol : bool) (s : str) (n : nat),
    match_here U icase p bol s = Some n ->
    min_len p <= n <= List.length s.
Proof.
  induction p as [|a p' IH]; intros bol s n H.
  - injection H as <-. cbn. lia.
  - destruct a as [k|k| |]; cbn [match_here min_len] in H |- *.
    + destruct s as [|c s']; [discriminate H|].
      destruct (in_cset U icase k c); [|discriminate H].
      destruct (match_here U icase p' false s') as [m|] eqn:E;
        [|discriminate H].
      injection H as <-. apply IH in E. cbn [List.length]. lia.
    + revert n H. induction s as [|c s' IHs]; intros n H; [discriminate H|].
      destruct (in_cset U icase k c); [|discriminate H].
      match type of H with
      | match ?run with _ => _ end = _ => destruct run as [m|] eqn:Erun
      end.
      * injection H as <-. pose proof (IHs m eq_refl).
        cbn [List.length]. lia.
      * destruct (match_here U icase p' false s') as [m|] eqn:E;
          [|discriminate H].
        injection H as <-. apply IH in E. cbn [List.length]. lia.
    + destruct bol; [now apply IH in H | discriminate H].
    + destruct (at_eol s); [now apply IH in H | discriminate H].
Qed.

(** [re.sub] does not lengthen the string when the replacement is no longer
    than the shortest match. *)
Lemma sub_scan_length (icase : bool) (p : regex) (repl : str) :
  1 <= min_len p ->
  List.length repl <= min_len p ->
  forall (s : str) (bol : bool) (skip : nat),
    List.length (sub_scan U icase p repl bol skip s) <= List.length s - skip.
Proof.
  intros Hone Hrepl s. induction s as [|c s' IH]; intros bol skip.
  - cbn [sub_scan]. destruct skip; [|cbn; lia].
    destruct (match_here U icase p bol []) as [n|] eqn:E; [|cbn; lia].
    apply match_here_bounds in E. cbn in E. lia.
  - cbn [sub_scan]. destruct skip as [|k].
    + destruct (match_here U icase p bol (c :: s')) as [[|k]|] eqn:E.
      * apply match_here_bounds in E. lia.
      * apply match_here_bounds in E. cbn [List.length] in E |- *.
        rewrite length_app. pose proof (IH false k). lia.
      * cbn [List.length]. pose proof (IH false 0). lia.
    + cbn [List.length]. pose proof (IH false k). lia.
Qed.

Lemma re_sub_length (icase : bool) (p : regex) (repl : str) (s : str) :
  1 <= min_len p ->
  List.length repl <= min_len p ->
  List.length (re_sub U icase p repl s) <= List.length s.
Proof.
  intros Hone Hrepl. unfold re_sub.
  pose proof (sub_scan_length icase p repl Hone Hrepl s true 0). lia.
Qed.

Lemma min_len_lits (w : str) (p : regex) :
  min_len (lits w ++ p) = List.length w + min_len p.
Proof.
  induction w as [|c w IH]; [reflexivity|].
  change (lits (c :: w) ++ p) with (One (CChar c) :: (lits w ++ p)).
  cbn [min_len List.length]. now rewrite IH.
Qed.

Lemma slug_remove_word_length (slug eachWord : str) :
  List.length (slug_remove_word U slug eachWord) <= List.length slug.
Proof.
  unfold slug_remove_word. cbv zeta.
  etransitivity; [apply re_sub_length|];
    [cbn [app min_len]; rewrite min_len_lits; cbn; lia
    |cbn [app min_len]; rewrite min_len_lits; cbn; lia|].
  etransitivity; [apply re_sub_length|];
    [cbn [app min_len]; rewrite min_len_lits; cbn; lia
    |cbn [app min_len]; rewrite min_len_lits; cbn; lia|].
  apply re_sub_length;
    cbn [app min_len]; rewrite min_len_lits; cbn; lia.
Qed.

Lemma remove_words_length (words : list str) (slug : str) :
  List.length (fold_left (slug_remove_word U) words slug) <= List.length slug.
Proof.
  revert slug; induction words as [|w words IH]; intros slug;
    cbn [fold_left]; [lia|].
  etransitivity; [apply IH | apply slug_remove_word_length].
Qed.

Lemma slug_remove_word_id (slug eachWord : str) :
  Forall (fun c => re_space U c = false) slug ->
  slug_remove_word U slug eachWord = slug.
Proof.
  intros Hs. unfold slug_remove_word, re_sub.
  rewrite (sub_scan_no_match true CSpace) with (s := slug);
    [|now left; right|exact Hs].
  rewrite (sub_scan_no_match true CSpace) with (s := slug);
    [|right; apply Exists_app; right; left; now right|exact Hs].
  apply (sub_scan_no_match true CSpace); [now left; right|exact Hs].
Qed.

Lemma remove_words_id (words : list str) (slug : str) :
  Forall (fun c => re_space U c = false) slug ->
  fold_left (slug_remove_word U) words slug = slug.
Proof.
  intros Hs. induction words as [|w words IH]; cbn [fold_left];
    [reflexivity|].
  now rewrite slug_remove_word_id.
Qed.
End SlugMoreProofs.

Lemma ascii_word_not_space (c : char) :
  ascii_word c = true -> ascii_space c = false.
Proof.
  unfold ascii_word, ascii_space. intros H.
  repeat rewrite ?orb_true_iff, ?andb_true_iff, ?N.leb_le, ?N.eqb_eq in H.
  apply orb_false_iff. rewrite !andb_false_iff, !N.leb_gt. lia.
Qed.

(** X18. A slug is its own slug: when no word character is a space and the
    apostrophe is no word character, [generateSlug] returns unchanged every
    string of word characters that has no two underscores in a row and that
    [lower()] leaves as it is. *)
Theorem generateSlug_fixed_point :
  forall U : pyunicode,
    re_word U 39%N = false ->
    (forall c : char, re_word U c = true -> re_space U c = false) ->
    forall s : str,
      str_lower U s = s ->
      Forall (fun c => re_word U c = true) s ->
      no_double_underscore s ->
      generateSlug U s = s.
Proof.
  intros U Hquote Hspace s Hlower Hword Hshape.
  unfold generateSlug. destruct s as [|c t] eqn:Es; [reflexivity|].
  cbn [str_truthy negb]. rewrite Hlower. rewrite <- Es in *. clear Es.
  assert (Hq : Forall (fun c => in_cset U false (CChar 39%N) c = false) s).
  { apply Forall_impl with (2 := Hword). intros a Ha. cbn [in_cset].
    apply N.eqb_neq. intros <-. rewrite Hquote in Ha. discriminate Ha. }
  assert (Hs : Forall (fun c => re_space U c = false) s)
    by (apply Forall_impl with (2 := Hword); exact Hspace).
  unfold slug_contractions, re_sub at 3.
  rewrite (sub_scan_no_match U false (CChar 39%N)) with (s := s);
    [|right; left; now left|exact Hq].
  rewrite (remove_words_id U removeWordList s Hs).
  unfold re_sub. rewrite sub_scan_notword, (notword_id U s Hword).
  rewrite (proj1 (sub_scan_underscores U s)).
  apply (proj1 (collapse_id s Hshape)).
Qed.

Lemma generateSlug_fixed_point_witness :
  generateSlug ascii_db (lit "xiaomi_sport_uses_sets_mi_band_4")
  = lit "xiaomi_sport_uses_sets_mi_band_4".
Proof.
  apply (generateSlug_fixed_point ascii_db eq_refl ascii_word_not_space).
  - reflexivity.
  - vm_compute. repeat constructor.
  - vm_compute. repeat split; intros [H1 H2]; discriminate.
Defined.

(** X19. The slug is never longer than the lower-cased title: each
    substitution of [generateSlug] puts at most as many characters as the
    match it replaces. *)
Theorem generateSlug_length :
  forall (U : pyunicode) (enTitle : str),
    List.length (generateSlug U enTitle)
    <= List.length (str_lower U enTitle).
Proof.
  intros U enTitle. unfold generateSlug.
  destruct enTitle as [|c t]; cbn [str_truthy negb]; [cbn; lia|].
  etransitivity; [apply re_sub_length; cbn; lia|].
  etransitivity; [apply re_sub_length; cbn; lia|].
  etransitivity; [apply remove_words_length|].
  unfold slug_contractions. apply re_sub_length; cbn; lia.
Qed.
